(** * update_cv.py: the content transformation pipeline

    A shallow embedding of the pure core of [update_cv.py]: the LaTeX
    escaper, the rich-text renderer, the region filter, the block
    converter, the date-override parser and the entry sorter.

    Conventions of the embedding.
    - A Python [str] is a [string]: the UTF-8 bytes of the text.  The
      characters the program looks for are ASCII, except the em dash and
      the en dash, which are the three-byte sequences [em_dash] and
      [en_dash]; UTF-8 being self-synchronising, searching and replacing
      these byte sequences is searching and replacing the characters.
    - [str.strip], [str.split()], [int] and [str.lower] act on ASCII
      only: whitespace is the ASCII whitespace of [str.isspace], digits
      are [0-9], case is [A-Z]/[a-z].  Python also treats the Unicode
      spaces (U+00A0, U+2003, U+3000, ...) as whitespace and the other
      Unicode decimal digits as digits.  A property whose truth depends
      on how such a text is trimmed, split or read as a number is stated
      for ASCII text ([isascii]), or for text that is ASCII apart from
      em and en dashes ([dash_ascii]), where the embedding and Python
      agree.
    - A Python dict read with [.get] is a record of [option] fields; a
      subscript [d[k]] on a missing key raises [KeyError].
    - [Optional[str]] is [option string]; Python truthiness of such a
      value is [truthy]: [None] and the empty string are false. *)

From Stdlib Require Import String Ascii List ZArith Lia Bool Arith.
From Stdlib Require Import Permutation Sorted DecimalString.
Import ListNotations.

Open Scope list_scope.
Open Scope string_scope.

(** ** Python string primitives *)

Module Py.

(** [str.isspace] on an ASCII character: tab, LF, VT, FF, CR, the four
    separators 0x1c-0x1f and the space.  The Unicode spaces beyond ASCII
    take several bytes and are not whitespace here, so [lstrip],
    [rstrip], [strip] and [split_ws] below are Python's on ASCII text
    and on text whose other characters are not spaces. *)
Definition isspace (c : ascii) : bool :=
  let n := nat_of_ascii c in
  (((9 <=? n) && (n <=? 13)) || ((28 <=? n) && (n <=? 31)) || (n =? 32))%nat.

Definition lower_char (c : ascii) : ascii :=
  let n := nat_of_ascii c in
  if ((65 <=? n) && (n <=? 90))%nat then ascii_of_nat (n + 32) else c.

(** [s.lower()] *)
Fixpoint lower (s : string) : string :=
  match s with
  | EmptyString => EmptyString
  | String c s' => String (lower_char c) (lower s')
  end.

(** [s.lstrip()] *)
Fixpoint lstrip (s : string) : string :=
  match s with
  | EmptyString => EmptyString
  | String c s' => if isspace c then lstrip s' else s
  end.

(** [s.rstrip()]: a character is dropped when it is whitespace and
    nothing but whitespace follows it. *)
Fixpoint rstrip (s : string) : string :=
  match s with
  | EmptyString => EmptyString
  | String c s' =>
      match rstrip s' with
      | EmptyString => if isspace c then EmptyString else String c EmptyString
      | r => String c r
      end
  end.

(** [s.strip()] *)
Definition strip (s : string) : string := lstrip (rstrip s).

(** [sub in s] *)
Fixpoint contains (sub s : string) : bool :=
  prefix sub s ||
  match s with
  | EmptyString => false
  | String _ s' => contains sub s'
  end.

Fixpoint drop (n : nat) (s : string) : string :=
  match n, s with
  | S n', String _ s' => drop n' s'
  | _, _ => s
  end.

(** [s.split(sep, 1)] when [sep in s]: the text before and after the
    first occurrence of [sep]; [None] when [sep] does not occur (the
    two-name unpacking of the source would raise there, and every call is
    guarded by [sep in s]). *)
Fixpoint split_once (sep s : string) : option (string * string) :=
  if prefix sep s then Some (EmptyString, drop (String.length sep) s)
  else match s with
       | EmptyString => None
       | String c s' =>
           match split_once sep s' with
           | Some (a, b) => Some (String c a, b)
           | None => None
           end
       end.

(** [s.split(c)] for a one-character separator: empty pieces are kept. *)
Fixpoint split_char (c : ascii) (s : string) : list string :=
  match s with
  | EmptyString => [EmptyString]
  | String a s' =>
      if Ascii.eqb a c then EmptyString :: split_char c s'
      else match split_char c s' with
           | h :: t => String a h :: t
           | [] => [String a EmptyString]
           end
  end.

(** [s.split()]: the maximal runs of non-whitespace characters.  [cur]
    is the run being read, extended at its end by each character. *)
Fixpoint split_ws_aux (cur : string) (s : string) : list string :=
  match s with
  | EmptyString => match cur with EmptyString => [] | _ => [cur] end
  | String c s' =>
      if isspace c
      then match cur with
           | EmptyString => split_ws_aux EmptyString s'
           | _ => cur :: split_ws_aux EmptyString s'
           end
      else split_ws_aux (cur ++ String c EmptyString) s'
  end.

Definition split_ws (s : string) : list string := split_ws_aux EmptyString s.

(** [s.replace(old, new)] for a non-empty [old]: occurrences are replaced
    left to right without overlap; [skip] counts the characters of a
    matched occurrence still to be passed over. *)
Fixpoint replace_aux (old new : string) (skip : nat) (s : string) : string :=
  match s with
  | EmptyString => EmptyString
  | String c s' =>
      match skip with
      | S k => replace_aux old new k s'
      | O => if prefix old s
             then new ++ replace_aux old new (String.length old - 1) s'
             else String c (replace_aux old new 0 s')
      end
  end.

Definition replace (old new s : string) : string := replace_aux old new 0 s.

(** [sep.join(parts)] *)
Fixpoint join (sep : string) (parts : list string) : string :=
  match parts with
  | [] => EmptyString
  | [p] => p
  | p :: rest => p ++ sep ++ join sep rest
  end.

(** Truthiness of an [Optional[str]]. *)
Definition truthy (o : option string) : bool :=
  match o with
  | Some (String _ _) => true
  | _ => false
  end.

(** An ASCII decimal digit.  [int] of Python also reads the other
    Unicode decimal digits, which are not digits here: [int] below is
    Python's on ASCII tokens. *)
Definition is_digit (c : ascii) : bool :=
  let n := nat_of_ascii c in ((48 <=? n) && (n <=? 57))%nat.

Definition digit_value (c : ascii) : Z := Z.of_nat (nat_of_ascii c - 48).

(** The digits of a decimal literal after the sign: digits with single
    underscores between them.  [acc] is the value read so far, [n] the
    number of digits read, [prev_digit] whether the previous character
    was a digit.  Returns the value and the digit count. *)
Fixpoint int_digits (acc : Z) (n : Z) (prev_digit : bool) (s : string)
  : option (Z * Z) :=
  match s with
  | EmptyString => if prev_digit then Some (acc, n) else None
  | String c s' =>
      if is_digit c then int_digits (10 * acc + digit_value c) (n + 1) true s'
      else if Ascii.eqb c "_" then
             if prev_digit then int_digits acc n false s' else None
      else None
  end.

(** CPython's default cap on the number of digits [int] converts
    ([sys.int_max_str_digits]); beyond it [int] raises [ValueError]. *)
Definition int_max_str_digits : Z := 4300.

(** [int(s)] for a token without whitespace: [None] is [ValueError]. *)
Definition int (s : string) : option Z :=
  let body sign rest :=
    match int_digits 0 0 false rest with
    | Some (v, n) => if n <=? int_max_str_digits then Some (sign * v) else None
    | None => None
    end%Z in
  match s with
  | String "+" rest => body 1%Z rest
  | String "-" rest => body (-1)%Z rest
  | _ => body 1%Z s
  end.

End Py.

(** ** LaTeX helpers *)

(** The dict [LATEX_SPECIALS], in source order. *)
Definition LATEX_SPECIALS : list (ascii * string) :=
  [ ("\"%char, "\textbackslash{}");
    ("{"%char, "\{");
    ("}"%char, "\}");
    ("$"%char, "\$");
    ("&"%char, "\&");
    ("#"%char, "\#");
    ("%"%char, "\%");
    ("_"%char, "\_");
    ("~"%char, "\textasciitilde{}");
    ("^"%char, "\textasciicircum{}") ].

(** [LATEX_SPECIALS.get(ch, ch)] *)
Fixpoint specials_get (d : list (ascii * string)) (ch : ascii) : string :=
  match d with
  | [] => String ch EmptyString
  | (k, v) :: d' => if Ascii.eqb k ch then v else specials_get d' ch
  end.

Fixpoint latex_escape (text : string) : string :=
  match text with
  | EmptyString => EmptyString
  | String ch rest => specials_get LATEX_SPECIALS ch ++ latex_escape rest
  end.

(** ** Notion rich text to LaTeX *)

(** The [annotations] dict of a rich-text object: each flag is read with
    [ann.get(k)], so an absent key is [false]. *)
Record annotations := mkAnn {
  code : bool;
  bold : bool;
  italic : bool;
  underline : bool;
  strikethrough : bool
}.

Definition no_annotations : annotations := mkAnn false false false false false.

(** A Notion rich-text object, as [rt_to_latex] reads it. *)
Record rich_text_obj := mkRT {
  plain_text : option string;
  rt_annotations : option annotations;
  href : option string
}.

Definition wrap (macro t : string) : string := macro ++ "{" ++ t ++ "}".

(** The body of the loop of [rt_to_latex] for one object. *)
Definition render_span (rt : rich_text_obj) : string :=
  let t := match plain_text rt with Some s => s | None => "" end in
  let t := latex_escape t in
  let ann := match rt_annotations rt with Some a => a | None => no_annotations end in
  let t := if Py.truthy (href rt)
           then match href rt with
                | Some h => "\href{" ++ h ++ "}{" ++ t ++ "}"
                | None => t
                end
           else t in
  let t := if code ann then wrap "\texttt" t else t in
  let t := if bold ann then wrap "\textbf" t else t in
  let t := if italic ann then wrap "\textit" t else t in
  let t := if underline ann then wrap "\uline" t else t in
  let t := if strikethrough ann then wrap "\sout" t else t in
  t.

Definition rt_to_latex (rich_text : list rich_text_obj) : string :=
  Py.join "" (map render_span rich_text).


(** ** Exceptions and results *)

Inductive exn := KeyError | AttributeError.

(** The outcome of running a function of the source: it returns a value,
    raises, or (for the fuelled block converter only) the model ran out
    of fuel before the source would have finished. *)
Inductive outcome (A : Type) :=
| Returns (a : A)
| Raises (e : exn)
| OutOfFuel.

Arguments Returns {A} a.
Arguments Raises {A} e.
Arguments OutOfFuel {A}.

Definition bind {A B : Type} (m : outcome A) (k : A -> outcome B) : outcome B :=
  match m with
  | Returns a => k a
  | Raises e => Raises e
  | OutOfFuel => OutOfFuel
  end.

Notation "x <- m ;; k" := (bind m (fun x => k))
  (at level 61, m at next level, right associativity).

(** A [for] loop collecting results, stopping at the first exception. *)
Fixpoint mapM {A B : Type} (f : A -> outcome B) (l : list A) : outcome (list B) :=
  match l with
  | [] => Returns []
  | a :: l' => b <- f a ;; bs <- mapM f l' ;; Returns (b :: bs)
  end.

(** ** Notion blocks *)

(** The payload of a block, the dict stored under the key named by the
    block's own type: [b[b["type"]]]. *)
Record payload := mkPayload {
  rich_text : option (list rich_text_obj);
  expression : option string
}.

(** A block record.  [b_type] is [b.get("type")], [b_payload] the entry
    under the key named by the type ([None]: the key is missing),
    [b_id] the entry ["id"], and [b_children] what
    [list_children(notion, b["id"])] answers for this block. *)
#[warnings="-register-all"]
Inductive block := mkBlock {
  b_type : option string;
  b_payload : option payload;
  has_children : bool;
  b_id : option string;
  b_children : list block
}.

(** [payload.get("rich_text", [])] *)
Definition get_rich_text (p : payload) : list rich_text_obj :=
  match rich_text p with Some l => l | None => [] end.

(** [b[tp]] *)
Definition subscript_payload (b : block) : outcome payload :=
  match b_payload b with
  | Some p => Returns p
  | None => Raises KeyError
  end.

(** [tp == s] for [tp = b.get("type")] *)
Definition type_is (tp : option string) (s : string) : bool :=
  match tp with
  | Some t => String.eqb t s
  | None => false
  end.

(** [tp in (s1, ..., sn)] *)
Definition type_in (tp : option string) (l : list string) : bool :=
  existsb (type_is tp) l.

(** ** Region filter *)

(** Line 203 of the source: the stripped plain text of the first
    rich-text object of a level-1 heading, or the empty string when the
    heading has no rich text. *)
Definition heading_1_text (b : block) : outcome string :=
  p <- subscript_payload b ;;
  Returns match rich_text p with
          | Some (rt0 :: _) =>
              Py.strip (match plain_text rt0 with Some s => s | None => "" end)
          | _ => ""
          end.

(** What a loop iteration of [filter_for_resume_region] decides for a
    block before the inclusion test. *)
Inductive sentinel := ForResume | NotForResume | Ordinary.

Definition classify (b : block) : outcome sentinel :=
  if type_is (b_type b) "heading_1" then
    text_plain <- heading_1_text b ;;
    if String.eqb (Py.lower text_plain) "for resume" then Returns ForResume
    else if String.eqb (Py.lower text_plain) "not for resume" then Returns NotForResume
    else Returns Ordinary
  else Returns Ordinary.

(** The [for] loop of [filter_for_resume_region], with its three
    variables. *)
Fixpoint filter_loop (in_resume found_for_resume : bool) (filtered : list block)
  (blocks : list block) : outcome (list block) :=
  match blocks with
  | [] => Returns filtered
  | b :: rest =>
      s <- classify b ;;
      match s with
      | ForResume => filter_loop true true filtered rest
      | NotForResume => Returns filtered
      | Ordinary =>
          if negb found_for_resume || in_resume
          then filter_loop in_resume found_for_resume (filtered ++ [b])%list rest
          else filter_loop in_resume found_for_resume filtered rest
      end
  end.

Definition filter_for_resume_region (blocks : list block) : outcome (list block) :=
  filter_loop true false [] blocks.

(** ** Block converter *)

Definition nl : string := String (ascii_of_nat 10) EmptyString.

Definition is_list_item (tp : option string) : bool :=
  type_in tp ["bulleted_list_item"; "numbered_list_item"].

Definition list_env (lt : option string) : string :=
  if type_is lt "bulleted_list_item" then "itemize" else "enumerate".

Definition item_line (text : string) : string := "\item " ++ text.
Definition begin_env (env : string) : string := "\begin{" ++ env ++ "}".
Definition end_env (env : string) : string := "\end{" ++ env ++ "}".

(** [tp.startswith("heading_")]; [None] has no such method. *)
Definition startswith_heading (tp : option string) : outcome bool :=
  match tp with
  | Some t => Returns (prefix "heading_" t)
  | None => Raises AttributeError
  end.

(** The list run starting after a block of type [run_type]: the blocks
    the inner [while] appends, and the blocks left at index [j]. *)
Fixpoint take_run (run_type : option string) (blocks : list block)
  : list block * list block :=
  match blocks with
  | b :: rest =>
      if match b_type b, run_type with
         | Some t, Some r => String.eqb t r
         | None, None => true
         | _, _ => false
         end
      then let (run, rest') := take_run run_type rest in (b :: run, rest')
      else ([], blocks)
  | [] => ([], [])
  end.

(** The paragraph-like branch: the text of a paragraph, quote, equation
    or code block. *)
Definition paragraph_like_text (b : block) (tp : option string) : outcome string :=
  p <- subscript_payload b ;;
  if type_is tp "paragraph" then Returns (rt_to_latex (get_rich_text p))
  else if type_is tp "quote" then
    Returns ("\begin{quote}" ++ rt_to_latex (get_rich_text p) ++ "\end{quote}")
  else if type_is tp "equation" then
    Returns ("$ " ++ latex_escape (match expression p with Some e => e | None => "" end)
                  ++ " $")
  else
    Returns ("\begin{verbatim}" ++ nl ++ rt_to_latex (get_rich_text p) ++ nl
                                ++ "\end{verbatim}").

(** [_render_list_block_item], [convert_blocks_to_latex] and the [while]
    loop of the latter ([blocks] is [blocks[i:]], [out] the list built so
    far).  The three recurse into one another through the children of
    list items; [fuel] bounds the number of nested calls and loop
    iterations. *)
Fixpoint _render_list_block_item (fuel : nat) (block : block) (mode : string)
  {struct fuel} : outcome string :=
  match fuel with
  | O => OutOfFuel
  | S fuel' =>
      payload <- subscript_payload block ;;
      let text := rt_to_latex (get_rich_text payload) in
      let body := "\item " ++ text in
      if has_children block then
        match b_id block with
        | None => Raises KeyError
        | Some _ =>
            let children := b_children block in
            match children with
            | [] => Returns body
            | _ :: _ =>
                let child_items := filter (fun c => is_list_item (b_type c)) children in
                match child_items with
                | c0 :: _ =>
                    let env := list_env (b_type c0) in
                    items <- mapM (fun c => _render_list_block_item fuel' c mode)
                                  child_items ;;
                    Returns (body ++ nl ++
                             Py.join nl (begin_env env :: items ++ [end_env env])%list)
                | [] =>
                    para <- convert_blocks_to_latex fuel' children
                              (if String.eqb mode "items" then "paragraphs" else mode) ;;
                    if negb (String.eqb (Py.strip para) "")
                    then Returns (body ++ nl ++ para)
                    else Returns body
                end
            end
        end
      else Returns body
  end

with convert_loop (fuel : nat) (blocks : list block) (mode : string)
  (out : list string) {struct fuel} : outcome (list string) :=
  match fuel with
  | O => OutOfFuel
  | S fuel' =>
      match blocks with
      | [] => Returns out
      | b :: rest =>
          let tp := b_type b in
          if type_in tp ["paragraph"; "quote"; "equation"; "code"] then
            text <- paragraph_like_text b tp ;;
            if negb (String.eqb (Py.strip text) "")
            then if String.eqb mode "items"
                 then convert_loop fuel' rest mode (out ++ [item_line text])%list
                 else convert_loop fuel' rest mode (out ++ [text])%list
            else convert_loop fuel' rest mode out
          else if is_list_item tp then
            let run_type := tp in
            let (run_tail, rest') := take_run run_type rest in
            let run := b :: run_tail in
            if String.eqb mode "items" then
              items <- mapM (fun item => _render_list_block_item fuel' item "items") run ;;
              convert_loop fuel' rest' mode (out ++ items)%list
            else
              let env := list_env run_type in
              items <- mapM (fun item => _render_list_block_item fuel' item "paragraphs")
                            run ;;
              convert_loop fuel' rest' mode
                (out ++ begin_env env :: items ++ [end_env env])%list
          else
            h <- startswith_heading tp ;;
            if h then convert_loop fuel' rest mode out
            else convert_loop fuel' rest mode out
      end
  end

with convert_blocks_to_latex (fuel : nat) (blocks : list block) (mode : string)
  {struct fuel} : outcome string :=
  match fuel with
  | O => OutOfFuel
  | S fuel' =>
      out <- convert_loop fuel' blocks mode [] ;;
      Returns (Py.join nl out)
  end.

(** ** Dates *)

Definition MONTHS : list string :=
  ["Jan"; "Feb"; "Mar"; "Apr"; "May"; "Jun"; "Jul"; "Aug"; "Sep"; "Oct"; "Nov"; "Dec"].

(** [MONTHS.index(name)] when [name in MONTHS]. *)
Fixpoint index_of (name : string) (l : list string) : option nat :=
  match l with
  | [] => None
  | m :: l' => if String.eqb m name then Some O
               else match index_of name l' with
                    | Some i => Some (S i)
                    | None => None
                    end
  end.

(** A sort key: the tuple [(year, month)], compared as Python compares
    tuples. *)
Definition date_key : Type := Z * Z.

Definition key_lt (a b : date_key) : bool :=
  ((fst a <? fst b) || ((fst a =? fst b) && (snd a <? snd b)))%Z.

Definition key_le (a b : date_key) : Prop :=
  (fst a < fst b \/ (fst a = fst b /\ snd a <= snd b))%Z.

Definition key_eqb (a b : date_key) : bool :=
  ((fst a =? fst b) && (snd a =? snd b))%Z.

(** [parse_date_for_sorting]: the [ValueError] of [int] is caught and
    leads to the fallback.  The tokens and the year are those of Python
    on ASCII strings, the scope of [Py.split_ws] and [Py.int]. *)
Definition parse_date_for_sorting (date_str : string) : date_key :=
  if String.eqb date_str "" || String.eqb (Py.lower date_str) "present"
  then (9999, 12)%Z
  else match Py.split_ws date_str with
       | [month_name; year_str] =>
           match Py.int year_str with
           | Some year =>
               (year, match index_of month_name MONTHS with
                      | Some i => Z.of_nat i + 1
                      | None => 0
                      end)%Z
           | None => (0, 0)%Z
           end
       | _ => (0, 0)%Z
       end.

(** [min(l, key=key)] and [max(l, key=key)] on a non-empty list: the
    first element with the least (greatest) key. *)
Fixpoint min_from {A : Type} (key : A -> date_key) (best : A) (l : list A) : A :=
  match l with
  | [] => best
  | x :: l' => if key_lt (key x) (key best) then min_from key x l'
               else min_from key best l'
  end.

Fixpoint max_from {A : Type} (key : A -> date_key) (best : A) (l : list A) : A :=
  match l with
  | [] => best
  | x :: l' => if key_lt (key best) (key x) then max_from key x l'
               else max_from key best l'
  end.

Definition em_dash : string :=
  String (ascii_of_nat 226) (String (ascii_of_nat 128) (String (ascii_of_nat 148) "")).
Definition en_dash : string :=
  String (ascii_of_nat 226) (String (ascii_of_nat 128) (String (ascii_of_nat 147) "")).

(** [override_text.replace(em, "--").replace(en, "--")] *)
Definition normalize_dashes (override_text : string) : string :=
  Py.replace en_dash "--" (Py.replace em_dash "--" override_text).

(** [[r.strip() for r in normalized_text.split(",")]] *)
Definition split_ranges (normalized_text : string) : list string :=
  map Py.strip (Py.split_char "," normalized_text).

(** The loop over [ranges] filling [start_dates] and [end_dates]. *)
Fixpoint collect_dates (ranges : list string) : list string * list string :=
  match ranges with
  | [] => ([], [])
  | range_str :: rest =>
      let (start_dates, end_dates) := collect_dates rest in
      if Py.contains " -- " range_str then
        match Py.split_once " -- " range_str with
        | Some (start_part, end_part) =>
            (Py.strip start_part :: start_dates, Py.strip end_part :: end_dates)
        | None => (start_dates, end_dates)
        end
      else (start_dates, end_dates)
  end.

(** [[d for d in end_dates if d.lower() != "present"]] *)
Definition not_present (d : string) : bool :=
  negb (String.eqb (Py.lower d) "present").

(** The tail shared by the two override parsers: a single range, or a
    start only. *)
Definition single_range (normalized_text : string) : string * option string :=
  if Py.contains " -- " normalized_text then
    match Py.split_once " -- " normalized_text with
    | Some (start_part, end_part) => (Py.strip start_part, Some (Py.strip end_part))
    | None => (Py.strip normalized_text, None)
    end
  else (Py.strip normalized_text, None).

Definition parse_date_override (override_text : string) : string * option string :=
  let normalized_text := normalize_dashes override_text in
  let fallthrough := single_range normalized_text in
  if Py.contains "," normalized_text then
    let ranges := split_ranges normalized_text in
    let (start_dates, end_dates) := collect_dates ranges in
    match start_dates, end_dates with
    | s0 :: starts, _ :: _ =>
        let earliest_start := min_from parse_date_for_sorting s0 starts in
        let end_dates_no_present := filter not_present end_dates in
        let latest_end :=
          match end_dates_no_present with
          | e0 :: ends => max_from parse_date_for_sorting e0 ends
          | [] => "Present"
          end in
        (earliest_start, Some latest_end)
    | _, _ => fallthrough
    end
  else fallthrough.

Definition get_latest_end_date_from_override (override_text : string) : date_key :=
  if String.eqb override_text "" then (0, 0)%Z
  else
    let normalized_text := normalize_dashes override_text in
    let fallthrough :=
      if Py.contains " -- " normalized_text then
        match Py.split_once " -- " normalized_text with
        | Some (_, end_part) => parse_date_for_sorting (Py.strip end_part)
        | None => parse_date_for_sorting (Py.strip normalized_text)
        end
      else parse_date_for_sorting (Py.strip normalized_text) in
    if Py.contains "," normalized_text then
      let ranges := split_ranges normalized_text in
      let end_dates := snd (collect_dates ranges) in
      match end_dates with
      | _ :: _ =>
          let end_dates_no_present := filter not_present end_dates in
          match end_dates_no_present with
          | e0 :: ends =>
              parse_date_for_sorting (max_from parse_date_for_sorting e0 ends)
          | [] => (9999, 12)%Z
          end
      | [] => fallthrough
      end
    else fallthrough.

(** *** Property bags *)

(** The ["Date Override"] property: its [type], the [content] of its
    [text] dict and its [rich_text] list. *)
Record override_prop := mkOverride {
  o_type : option string;
  o_text_content : option string;
  o_rich_text : option (list rich_text_obj)
}.

(** A ["Start Date"] or ["End Date"] property: its [type] and its [date]
    dict, of which only [start] is read ([Some None]: a date dict
    without [start]). *)
Record date_prop := mkDateProp {
  d_type : option string;
  d_date : option (option string)
}.

Record props := mkProps {
  date_override : option override_prop;
  start_date_prop : option date_prop;
  end_date_prop : option date_prop
}.

Section DateRange.

(** [datetime.fromisoformat], a library function: the year and the month
    (1 to 12) of the parsed date, or [None] when it raises. *)
Variable fromisoformat : string -> option (Z * Z).

Definition fmt_date (d : option string) : option string :=
  match d with
  | Some (String _ _ as d) =>
      let dt := if Py.contains "T" d
                then fromisoformat (Py.replace "Z" "+00:00" d)
                else fromisoformat d in
      match dt with
      | Some (year, month) =>
          if (1 <=? month)%Z then
            match nth_error MONTHS (Z.to_nat (month - 1)) with
            | Some m => Some (m ++ " " ++ DecimalString.NilZero.string_of_int (Z.to_int year))
            | None => Some d
            end
          else Some d
      | None => Some d
      end
  | _ => None
  end.

Definition fmt_date_prop (p : option date_prop) : option string :=
  match p with
  | Some dp =>
      if type_is (d_type dp) "date" then
        match d_date dp with
        | Some start => fmt_date start
        | None => None
        end
      else None
  | None => None
  end.

Definition override_text_of (o : override_prop) : string :=
  if type_is (o_type o) "text"
  then match o_text_content o with Some c => c | None => "" end
  else Py.join ""
         (map (fun text => match plain_text text with Some t => t | None => "" end)
              (match o_rich_text o with Some l => l | None => [] end)).

Definition get_date_range (p : props)
  : option string * option string * option string :=
  let fallback :=
    (fmt_date_prop (start_date_prop p), fmt_date_prop (end_date_prop p), None) in
  match date_override p with
  | Some o =>
      if type_in (o_type o) ["text"; "rich_text"] then
        let override_text := override_text_of o in
        if negb (String.eqb (Py.strip override_text) "") then
          let (start_d, end_d) := parse_date_override (Py.strip override_text) in
          (Some start_d, end_d, Some (Py.strip override_text))
        else fallback
      else fallback
  | None => fallback
  end.

End DateRange.

(** ** Entry sorter *)

(** A CV entry, the dict built by [fetch_notion_data]. *)
Record entry := mkEntry {
  name : string;
  organization : string;
  location : string;
  e_type : string;
  start_date : option string;
  end_date : option string;
  date_display : option string;
  is_visible : bool;
  body_latex : string
}.

(** [a or b] on [Optional[str]] values. *)
Definition py_or (a b : option string) : option string :=
  if Py.truthy a then a else b.

Definition get_sort_date (e : entry) : date_key :=
  match date_display e with
  | Some (String _ _ as d) => get_latest_end_date_from_override d
  | _ =>
      match py_or (end_date e) (start_date e) with
      | Some (String _ _ as date_str) => parse_date_for_sorting date_str
      | _ => (0, 0)%Z
      end
  end.

(** [sorted(l, key=key, reverse=True)]: the stable sort in descending key
    order.  An element is inserted in front of the first element whose
    key is not greater than its own, so it stays ahead of the equal-keyed
    elements that followed it in the input. *)
Fixpoint insert_reverse {A : Type} (key : A -> date_key) (x : A) (l : list A) : list A :=
  match l with
  | [] => [x]
  | y :: l' => if key_lt (key x) (key y) then y :: insert_reverse key x l'
               else x :: l
  end.

Fixpoint sorted_reverse {A : Type} (key : A -> date_key) (l : list A) : list A :=
  match l with
  | [] => []
  | x :: l' => insert_reverse key x (sorted_reverse key l')
  end.

Definition sort_entries_by_date (entries : list entry) : list entry :=
  sorted_reverse get_sort_date entries.

(** ** Sorting the sections *)

(** [cv_data]: a dict from section name to entries, in insertion order. *)
Definition cv_data : Type := list (string * list entry).

(** [sort_cv_data]: every section is replaced by its sorted entries. *)
Definition sort_cv_data (data : cv_data) : cv_data :=
  map (fun section => (fst section, sort_entries_by_date (snd section))) data.

(** ** Child retrieval *)

(** A response of [notion.blocks.children.list]: [results], [has_more]
    (its truthiness) and [next_cursor]. *)
Record children_response := mkResponse {
  r_results : option (list block);
  r_has_more : bool;
  r_next_cursor : option string
}.

(** The call [notion.blocks.children.list(block_id=..., start_cursor=...)]
    as a function of its two arguments. *)
Definition children_api : Type := string -> option string -> children_response.

(** [resp.get("results", [])] *)
Definition results_of (resp : children_response) : list block :=
  match r_results resp with Some l => l | None => [] end.

(** The [while True] loop of [list_children], with its two variables;
    [fuel] bounds the number of requests. *)
Fixpoint list_children_loop (fuel : nat) (notion : children_api) (block_id : string)
  (start_cursor : option string) (all_blocks : list block) : outcome (list block) :=
  match fuel with
  | O => OutOfFuel
  | S fuel' =>
      let resp := notion block_id start_cursor in
      let all_blocks := (all_blocks ++ results_of resp)%list in
      if negb (r_has_more resp) then Returns all_blocks
      else list_children_loop fuel' notion block_id (r_next_cursor resp) all_blocks
  end.

Definition list_children (fuel : nat) (notion : children_api) (block_id : string)
  : outcome (list block) :=
  list_children_loop fuel notion block_id None [].

(** The responses the service gives for [block_id] from [cursor] on,
    each requested with the cursor of the one before, up to the first
    response without [has_more]. *)
Inductive paged (notion : children_api) (block_id : string)
  : option string -> list children_response -> Prop :=
| paged_last cursor :
    r_has_more (notion block_id cursor) = false ->
    paged notion block_id cursor [notion block_id cursor]
| paged_more cursor pages :
    r_has_more (notion block_id cursor) = true ->
    paged notion block_id (r_next_cursor (notion block_id cursor)) pages ->
    paged notion block_id cursor (notion block_id cursor :: pages).

(** ** Specification vocabulary *)

(** The opening and closing text that the style annotations put around a
    span, outermost first. *)
Definition style_open (ann : annotations) : string :=
  (if strikethrough ann then "\sout{" else "") ++
  (if underline ann then "\uline{" else "") ++
  (if italic ann then "\textit{" else "") ++
  (if bold ann then "\textbf{" else "") ++
  (if code ann then "\texttt{" else "").

Definition style_close (ann : annotations) : string :=
  (if code ann then "}" else "") ++
  (if bold ann then "}" else "") ++
  (if italic ann then "}" else "") ++
  (if underline ann then "}" else "") ++
  (if strikethrough ann then "}" else "").

(** The annotations and the literal text of a span, with the defaults of
    the source. *)
Definition ann_of (rt : rich_text_obj) : annotations :=
  match rt_annotations rt with Some a => a | None => no_annotations end.

Definition text_of (rt : rich_text_obj) : string :=
  match plain_text rt with Some s => s | None => "" end.

(** A level-1 heading whose rich text is the single plain span [t]. *)
Definition heading_1 (t : string) : block :=
  mkBlock (Some "heading_1")
          (Some (mkPayload (Some [mkRT (Some t) None None]) None))
          false None [].

(** The whole text of a sequence of spans. *)
Definition spans_text (spans : list rich_text_obj) : string :=
  Py.join "" (map text_of spans).

(** A text that reads as one of the two sentinels once trimmed and
    lowercased. *)
Definition sentinel_text (t : string) : Prop :=
  Py.lower (Py.strip t) = "for resume" \/ Py.lower (Py.strip t) = "not for resume".

(** A text made of whitespace only. *)
Fixpoint blank (s : string) : bool :=
  match s with
  | EmptyString => true
  | String c s' => Py.isspace c && blank s'
  end.

(** The number of non-whitespace characters of a text, and the first of
    them. *)
Fixpoint ink (s : string) : nat :=
  match s with
  | EmptyString => O
  | String c s' => (if Py.isspace c then 0 else 1) + ink s'
  end.

Fixpoint first_ink (s : string) : option ascii :=
  match s with
  | EmptyString => None
  | String c s' => if Py.isspace c then first_ink s' else Some c
  end.

(** *** Well-shaped blocks *)

Definition is_some {A : Type} (o : option A) : bool :=
  match o with Some _ => true | None => false end.

Definition paragraph_like (tp : option string) : bool :=
  type_in tp ["paragraph"; "quote"; "equation"; "code"].









(** *** Date overrides *)

(** The (start, end) pairs of a multi-range override: every comma-separated
    piece of the dash-normalised text, trimmed, is split at its first
    [" -- "]; pieces without the separator are discarded. *)
Definition parsed_ranges (override_text : string) : list (string * string) :=
  flat_map (fun r => match Py.split_once " -- " r with
                     | Some (a, b) => [(Py.strip a, Py.strip b)]
                     | None => []
                     end)
           (split_ranges (normalize_dashes override_text)).

(** [s] is an earliest of [starts] in the year/month order. *)
Definition earliest (s : string) (starts : list string) : Prop :=
  In s starts /\
  forall s', In s' starts ->
    key_le (parse_date_for_sorting s) (parse_date_for_sorting s').

(** [e] is a latest of the concrete (not "present") ends of [ends]. *)
Definition latest_concrete (e : string) (ends : list string) : Prop :=
  In e ends /\ not_present e = true /\
  forall c, In c ends -> not_present c = true ->
    key_le (parse_date_for_sorting c) (parse_date_for_sorting e).

(** *** Sort keys *)

(** A non-empty run of decimal digits and the number it writes. *)
Fixpoint all_digits (s : string) : bool :=
  match s with
  | EmptyString => true
  | String c s' => Py.is_digit c && all_digits s'
  end.

Fixpoint decimal_from (acc : Z) (s : string) : Z :=
  match s with
  | EmptyString => acc
  | String c s' => decimal_from (10 * acc + Py.digit_value c) s'
  end.

Definition decimal_value (s : string) : Z := decimal_from 0 s.

(** The form "MonthAbbrev Year": a month abbreviation of the table, one
    space, a year in decimal digits. *)
Definition month_year_form (s : string) : Prop :=
  exists m ds, In m MONTHS /\ ds <> "" /\ all_digits ds = true /\ s = m ++ " " ++ ds.

(** A property bag whose only entry is a rich-text date override. *)
Definition override_only (text : string) : props :=
  mkProps (Some (mkOverride (Some "rich_text") None (Some [mkRT (Some text) None None])))
          None None.

(** *** The effective date key of an entry, in the words of the
    specification *)

(** The latest end date of an override, resolved as [parse_date_override]
    resolves it: the sort key of the resolved end, or of the start when
    the override has no end. *)
Definition override_end_key (override_text : string) : date_key :=
  match parse_date_override override_text with
  | (_, Some e) => parse_date_for_sorting e
  | (s, None) => parse_date_for_sorting s
  end.

Definition value_of (o : option string) : string :=
  match o with Some s => s | None => "" end.

(** The key of an entry: from the override when [date_display] is set,
    else from [end_date] when set, else from [start_date] when set, else
    (0, 0).  A field is set when it is neither null nor the empty string
    (Python truthiness). *)
Definition effective_date_key (e : entry) : date_key :=
  if Py.truthy (date_display e) then override_end_key (value_of (date_display e))
  else if Py.truthy (end_date e) then parse_date_for_sorting (value_of (end_date e))
  else if Py.truthy (start_date e) then parse_date_for_sorting (value_of (start_date e))
  else (0, 0)%Z.

(** [a] may stand before [b] in descending key order. *)
Definition descending (a b : entry) : Prop :=
  key_le (effective_date_key b) (effective_date_key a).

(** Blocks with a single plain span, for the examples. *)
Definition plain_block (kind text : string) : block :=
  mkBlock (Some kind) (Some (mkPayload (Some [mkRT (Some text) None None]) None))
          false None [].

(** *** Vocabulary for the properties of the escaper *)

(** A character with an entry in [LATEX_SPECIALS]. *)
Definition reserved (c : ascii) : bool :=
  existsb (fun kv => Ascii.eqb (fst kv) c) LATEX_SPECIALS.

Fixpoint has_reserved (s : string) : bool :=
  match s with
  | EmptyString => false
  | String c s' => reserved c || has_reserved s'
  end.

(** A scan of LaTeX text: [~] and [^] do not occur, and each of
    [& % $ # _] comes right after a backslash.  [after_backslash] tells
    whether the previous character was a backslash. *)
Definition needs_backslash (c : ascii) : bool :=
  existsb (Ascii.eqb c) ["&"; "%"; "$"; "#"; "_"]%char.

Definition banned (c : ascii) : bool :=
  existsb (Ascii.eqb c) ["~"; "^"]%char.

Fixpoint inert (after_backslash : bool) (s : string) : bool :=
  match s with
  | EmptyString => true
  | String c s' =>
      (if needs_backslash c then after_backslash else negb (banned c))
      && inert (Ascii.eqb c "\") s'
  end.

(** The text a span's styles go around: the escaped literal text, inside
    the link construct when the span has a link target. *)
Definition link_core (rt : rich_text_obj) : string :=
  match href rt with
  | Some (String _ _ as target) =>
      "\href{" ++ target ++ "}{" ++ latex_escape (text_of rt) ++ "}"
  | _ => latex_escape (text_of rt)
  end.

(** *** Vocabulary for the properties of the region filter and of the
    block converter *)

(** The blocks the filter keeps, given what each block is classified
    as: the ordinary blocks in front of the first "Not For Resume"
    heading. *)
Fixpoint kept_before_cut (tagged : list (block * sentinel)) : list block :=
  match tagged with
  | [] => []
  | (_, NotForResume) :: _ => []
  | (_, ForResume) :: rest => kept_before_cut rest
  | (b, Ordinary) :: rest => b :: kept_before_cut rest
  end.

(** The same block with other children. *)
Definition with_children (b : block) (children : list block) : block :=
  mkBlock (b_type b) (b_payload b) (has_children b) (b_id b) children.

(** The line of a list item without its children. *)
Definition item_text (b : block) : string :=
  "\item " ++ rt_to_latex (match b_payload b with
                           | Some p => get_rich_text p
                           | None => []
                           end).

(** A list item of kind [kind] that is not flagged as having children. *)
Definition leaf_item (kind : string) (b : block) : Prop :=
  b_type b = Some kind /\ has_children b = false /\ b_payload b <> None.

(** *** Vocabulary for the properties of the date functions *)

(** A text without whitespace. *)
Fixpoint no_space (s : string) : bool :=
  match s with
  | EmptyString => true
  | String c s' => negb (Py.isspace c) && no_space s'
  end.

(** A text that starts with a non-whitespace character. *)
Definition headed (s : string) : bool :=
  match s with
  | String c _ => negb (Py.isspace c)
  | EmptyString => false
  end.

(** A non-empty text without whitespace at either end. *)
Definition trimmed (s : string) : Prop := headed s = true /\ Py.rstrip s = s.

(** The argument [fmt_date] passes to [datetime.fromisoformat]. *)
Definition iso_argument (d : string) : string :=
  if Py.contains "T" d then Py.replace "Z" "+00:00" d else d.

(** The year [y] written by [fmt_date] is read back by [int]. *)
Definition year_reads_back (y : nat) : bool :=
  let s := NilZero.string_of_int (Z.to_int (Z.of_nat y)) in
  negb (String.eqb s "") && all_digits s && (String.length s <=? 4)%nat
  && (decimal_value s =? Z.of_nat y)%Z.

(** ** Fetching the entries *)

Definition TYPES_LONG : list string :=
  ["Work Experience"; "Leadership and Other Experience"; "Projects"].

Definition TYPES_SHORT : list string := ["Education"; "Awards"; "Publications"].

(** A property of a page as [get_prop_text] reads it, a non-empty dict:
    its [type], the entries [title], [rich_text] and [select] ([None]:
    the key is missing; for [select], [Some None] is a null selection or
    one without [name]) and the truthiness of [checkbox]. *)
Record property := mkProperty {
  p_type : option string;
  p_title : option (list rich_text_obj);
  p_rich_text : option (list rich_text_obj);
  p_select : option (option string);
  p_checkbox : bool
}.

(** [d.get(k)] on a dict given by its items. *)
Definition dict_get {V : Type} (d : list (string * V)) (k : string) : option V :=
  match find (fun kv => String.eqb (fst kv) k) d with
  | Some (_, v) => Some v
  | None => None
  end.

Definition get_prop_text (props : list (string * property)) (name : string)
  : outcome string :=
  match dict_get props name with
  | None => Returns ""
  | Some p =>
      match p_type p with
      | None => Raises KeyError
      | Some t =>
          if String.eqb t "title" then
            match p_title p with
            | Some l => Returns (Py.join "" (map text_of l))
            | None => Raises KeyError
            end
          else if String.eqb t "rich_text" then
            match p_rich_text p with
            | Some l => Returns (Py.join "" (map text_of l))
            | None => Raises KeyError
            end
          else if String.eqb t "select" then
            match p_select p with
            | Some selection =>
                Returns (match selection with Some n => n | None => "" end)
            | None => Raises KeyError
            end
          else if String.eqb t "checkbox" then
            Returns (if p_checkbox p then "true" else "false")
          else Returns ""
      end
  end.

(** A page of the query result: its [id], and its [properties] dict seen
    as the text properties [get_prop_text] looks up by name and the three
    date properties [get_date_range] reads. *)
Record page := mkPage {
  pg_id : option string;
  pg_text_props : list (string * property);
  pg_date_props : props
}.

(** A response of [notion.data_sources.query]. *)
Record query_response := mkQueryResponse {
  q_results : option (list page);
  q_has_more : bool;
  q_next_cursor : option string
}.

Definition query_api : Type := string -> option string -> query_response.

Definition pages_of (resp : query_response) : list page :=
  match q_results resp with Some l => l | None => [] end.

(** [s or default] on strings. *)
Definition str_or (s default : string) : string :=
  match s with EmptyString => default | _ => s end.

(** [cv_data.setdefault(type_name, []).append(entry)] *)
Fixpoint setdefault_append (data : cv_data) (type_name : string) (e : entry) : cv_data :=
  match data with
  | [] => [(type_name, [e])]
  | (k, es) :: rest =>
      if String.eqb k type_name then (k, es ++ [e])%list :: rest
      else (k, es) :: setdefault_append rest type_name e
  end.

Section Fetch.

Variable fromisoformat : string -> option (Z * Z).
Variable notion_children : children_api.
Variable notion_query : query_api.

(** [depth] is the fuel given to [list_children] and to
    [convert_blocks_to_latex]. *)
Variable depth : nat.

(** The body of the [for page in ...] loop up to the entry it builds. *)
Definition entry_of_page (pg : page) : outcome entry :=
  let props := pg_text_props pg in
  match pg_id pg with
  | None => Raises KeyError
  | Some page_id =>
      type_text <- get_prop_text props "Type" ;;
      let type_name := str_or type_text "Other" in
      title <- get_prop_text props "Title" ;;
      let name := str_or title "" in
      org <- get_prop_text props "Organization" ;;
      loc <- get_prop_text props "Location" ;;
      let '(start_d, end_d, date_display) :=
        get_date_range fromisoformat (pg_date_props pg) in
      children <- list_children depth notion_children page_id ;;
      filtered <- filter_for_resume_region children ;;
      let mode := if existsb (String.eqb type_name) TYPES_LONG
                  then "items" else "paragraphs" in
      body_latex <- convert_blocks_to_latex depth filtered mode ;;
      Returns (mkEntry name org loc type_name start_d end_d date_display true body_latex)
  end.

(** The [for] loop over the pages of one response. *)
Fixpoint process_pages (pages : list page) (data : cv_data) : outcome cv_data :=
  match pages with
  | [] => Returns data
  | pg :: rest =>
      e <- entry_of_page pg ;;
      process_pages rest (setdefault_append data (e_type e) e)
  end.

(** The [while True] loop of [fetch_notion_data]; [fuel] bounds the
    number of queries. *)
Fixpoint fetch_loop (fuel : nat) (database_id : string) (start_cursor : option string)
  (data : cv_data) : outcome cv_data :=
  match fuel with
  | O => OutOfFuel
  | S fuel' =>
      let resp := notion_query database_id start_cursor in
      data <- process_pages (pages_of resp) data ;;
      if negb (q_has_more resp) then Returns data
      else fetch_loop fuel' database_id (q_next_cursor resp) data
  end.

Definition fetch_notion_data (fuel : nat) (database_id : string) : outcome cv_data :=
  fetch_loop fuel database_id None [].

End Fetch.

(** The responses of the query from [cursor] on, up to the first one
    without [has_more]. *)
Inductive query_paged (query : query_api) (database_id : string)
  : option string -> list query_response -> Prop :=
| query_paged_last cursor :
    q_has_more (query database_id cursor) = false ->
    query_paged query database_id cursor [query database_id cursor]
| query_paged_more cursor resps :
    q_has_more (query database_id cursor) = true ->
    query_paged query database_id (q_next_cursor (query database_id cursor)) resps ->
    query_paged query database_id cursor (query database_id cursor :: resps).

(** The entries grouped by type, in the order of the entries. *)
Definition group_by_type (entries : list entry) (data : cv_data) : cv_data :=
  fold_left (fun d e => setdefault_append d (e_type e) e) entries data.

(** The section of a name: [data.get(name, [])]. *)
Definition section (data : cv_data) (name : string) : list entry :=
  match dict_get data name with Some es => es | None => [] end.

(** ** The texts on which the string primitives are Python's *)

(** [s.isascii()]: every character of the text is below U+0080, a single
    byte.  On such a text [Py.isspace], [Py.is_digit] and [Py.lower_char]
    decide what [str.strip], [str.split], [int] and [str.lower] decide;
    outside ASCII Python also trims and splits at no-break and other
    Unicode spaces and reads other decimal digits, which the bytes of the
    embedding do not show. *)
Fixpoint isascii (s : string) : bool :=
  match s with
  | EmptyString => true
  | String c s' => (nat_of_ascii c <? 128)%nat && isascii s'
  end.

(** A text that is ASCII apart from em and en dashes: ASCII once the
    dashes are replaced.  The dashes are neither whitespace nor digits. *)
Definition dash_ascii (s : string) : bool := isascii (normalize_dashes s).

(** An entry whose three date fields are such texts. *)
Definition ascii_dates (e : entry) : bool :=
  dash_ascii (value_of (date_display e))
  && dash_ascii (value_of (end_date e))
  && dash_ascii (value_of (start_date e)).

(** A block that is not a level-1 heading, or whose heading text, the
    plain text of its first span, is ASCII. *)
Definition ascii_heading (b : block) : bool :=
  negb (type_is (b_type b) "heading_1")
  || match b_payload b with
     | Some p => match rich_text p with
                 | Some (rt0 :: _) => isascii (text_of rt0)
                 | _ => true
                 end
     | None => true
     end.

(** An entry with a name and the three date fields, for the examples. *)
Definition dated (n : string) (s e d : option string) : entry :=
  mkEntry n "" "" "" s e d true "".

(** * Properties *)

(** ** The examples of the docstrings and of the specification *)

Example latex_escape_amp : latex_escape "Hello & World" = "Hello \& World".
Proof. reflexivity. Qed.

Example rt_to_latex_bold :
  rt_to_latex [mkRT (Some "Hello") (Some (mkAnn false true false false false)) None]
  = "\textbf{Hello}".
Proof. reflexivity. Qed.

Example filter_without_sentinels :
  let blocks := [plain_block "paragraph" "A"; plain_block "heading_2" "B";
                 plain_block "quote" "C"] in
  filter_for_resume_region blocks = Returns blocks.
Proof. reflexivity. Qed.

Example filter_not_for_resume_only :
  filter_for_resume_region
    [plain_block "paragraph" "A"; heading_1 " NOT for resume ";
     plain_block "paragraph" "B"]
  = Returns [plain_block "paragraph" "A"].
Proof. reflexivity. Qed.

Example list_runs_make_two_environments :
  convert_blocks_to_latex 8
    [plain_block "bulleted_list_item" "a"; plain_block "bulleted_list_item" "b";
     plain_block "bulleted_list_item" "c"; plain_block "numbered_list_item" "d"]
    "paragraphs"
  = Returns (Py.join nl
      ["\begin{itemize}"; "\item a"; "\item b"; "\item c"; "\end{itemize}";
       "\begin{enumerate}"; "\item d"; "\end{enumerate}"]).
Proof. reflexivity. Qed.

Example parse_single_range :
  parse_date_override "Jan 2020 -- Dec 2021" = ("Jan 2020", Some "Dec 2021")
  /\ parse_date_override "Jan 2020 -- Present" = ("Jan 2020", Some "Present")
  /\ parse_date_override ("Jan 2020 " ++ em_dash ++ " Dec 2021")
     = ("Jan 2020", Some "Dec 2021").
Proof. repeat split. Qed.

Example parse_two_concrete_ranges :
  parse_date_override "Jan 2020 -- Dec 2021, Jan 2023 -- Dec 2024"
  = ("Jan 2020", Some "Dec 2024").
Proof. reflexivity. Qed.

Example sort_three_end_dates :
  let ent e := mkEntry e "" "" "" None (Some e) None true "" in
  sort_entries_by_date [ent "Dec 2021"; ent "Present"; ent "Jun 2019"]
  = [ent "Present"; ent "Dec 2021"; ent "Jun 2019"].
Proof. reflexivity. Qed.

Example fmt_date_iso :
  fmt_date (fun _ => Some (2023, 6)%Z) (Some "2023-06-15") = Some "Jun 2023".
Proof. reflexivity. Qed.


(** ** Strings *)

Lemma append_assoc (a b c : string) : (a ++ b) ++ c = a ++ (b ++ c).
Proof. induction a as [|x a IH]; simpl; [reflexivity | now rewrite IH]. Qed.

Lemma append_nil_r (a : string) : a ++ "" = a.
Proof. induction a as [|x a IH]; simpl; [reflexivity | now rewrite IH]. Qed.

Lemma join_empty_app (xs ys : list string) :
  Py.join "" (xs ++ ys)%list = Py.join "" xs ++ Py.join "" ys.
Proof.
  induction xs as [|x xs IH]; simpl; [reflexivity|].
  destruct xs as [|x' xs].
  - simpl. destruct ys as [|y ys]; simpl.
    + now rewrite append_nil_r.
    + reflexivity.
  - change ((x' :: xs) ++ ys)%list with (x' :: (xs ++ ys))%list in *.
    rewrite IH. simpl. now rewrite append_assoc.
Qed.

(** ** Inline annotation renderer *)

Lemma rt_to_latex_app (xs ys : list rich_text_obj) :
  rt_to_latex (xs ++ ys) = rt_to_latex xs ++ rt_to_latex ys.
Proof. unfold rt_to_latex. now rewrite map_app, join_empty_app. Qed.

Lemma rt_to_latex_single (rt : rich_text_obj) : rt_to_latex [rt] = render_span rt.
Proof. reflexivity. Qed.

(** The styles of a span wrap whatever the link step produced. *)
Lemma render_span_styles (rt : rich_text_obj) (core : string) :
  (let t := core in
   let t := if code (ann_of rt) then wrap "\texttt" t else t in
   let t := if bold (ann_of rt) then wrap "\textbf" t else t in
   let t := if italic (ann_of rt) then wrap "\textit" t else t in
   let t := if underline (ann_of rt) then wrap "\uline" t else t in
   let t := if strikethrough (ann_of rt) then wrap "\sout" t else t in
   t) = style_open (ann_of rt) ++ core ++ style_close (ann_of rt).
Proof.
  unfold style_open, style_close, wrap.
  destruct (ann_of rt) as [c b i u s]; simpl.
  destruct c, b, i, u, s; simpl;
    repeat rewrite append_assoc; simpl; rewrite ?append_nil_r; reflexivity.
Qed.

(** C1, evaluated on the code.  A span with a link target, bold and
    italic set and no other annotation renders with the link construct
    innermost and the italic construct outermost:
    italic-wrap(bold-wrap(link-wrap(escaped text))).  This is not the
    nesting link-wrap(bold-wrap(italic-wrap(escaped text))) that the
    claim, and the comment in [rt_to_latex], ask for. *)
Theorem rt_to_latex_link_bold_italic (t : string) (c : ascii) (h : string) :
  let target := String c h in
  let span := mkRT (Some t) (Some (mkAnn false true true false false)) (Some target) in
  rt_to_latex [span]
    = "\textit{\textbf{\href{" ++ target ++ "}{" ++ latex_escape t ++ "}}}"
  /\ rt_to_latex [span]
    <> "\href{" ++ target ++ "}{\textbf{\textit{" ++ latex_escape t ++ "}}}".
Proof.
  intros target span. split.
  - unfold span, target. cbn. unfold wrap. cbn.
    repeat (rewrite append_assoc; cbn). reflexivity.
  - unfold span, target. cbn. discriminate.
Qed.

(** C10.  The link target of a span is never escaped: for every span
    with a (non-empty) link target, inside any list of spans, the output
    of [rt_to_latex] holds the target verbatim as the first argument of
    the link construct, next to the escaped literal text, with only the
    style constructs of the span around it.  Reserved characters of the
    target therefore reach the output unescaped. *)
Theorem rt_to_latex_href_verbatim
  (before after : list rich_text_obj) (rt : rich_text_obj) (target : string) :
  href rt = Some target ->
  target <> "" ->
  rt_to_latex (before ++ rt :: after)
  = rt_to_latex before
    ++ (style_open (ann_of rt)
        ++ ("\href{" ++ target ++ "}{" ++ latex_escape (text_of rt) ++ "}")
        ++ style_close (ann_of rt))
    ++ rt_to_latex after.
Proof.
  intros Hh Hne.
  change (rt :: after) with ([rt] ++ after)%list.
  rewrite !rt_to_latex_app, rt_to_latex_single.
  f_equal. f_equal.
  rewrite <- render_span_styles.
  unfold render_span, ann_of, text_of. rewrite Hh.
  destruct target as [|c target']; [congruence|]. reflexivity.
Qed.

Lemma rt_to_latex_href_verbatim_witness :
  rt_to_latex [mkRT (Some "a_b") None (Some "http://x.org/a_b%c#d")]
  = "\href{http://x.org/a_b%c#d}{a\_b}".
Proof.
  exact (rt_to_latex_href_verbatim [] []
           (mkRT (Some "a_b") None (Some "http://x.org/a_b%c#d"))
           "http://x.org/a_b%c#d" eq_refl ltac:(discriminate)).
Defined.

(** ** Region filter *)

Lemma isspace_lower_char (c : ascii) : Py.isspace (Py.lower_char c) = Py.isspace c.
Proof. destruct c as [[] [] [] [] [] [] [] []]; reflexivity. Qed.

Lemma ink_app (a b : string) : ink (a ++ b) = ink a + ink b.
Proof. induction a as [|c a IH]; simpl; [reflexivity | rewrite IH; lia]. Qed.

Lemma ink_lstrip (s : string) : ink (Py.lstrip s) = ink s.
Proof.
  induction s as [|c s IH]; simpl; [reflexivity|].
  destruct (Py.isspace c) eqn:E; simpl; [exact IH | now rewrite E].
Qed.

Lemma ink_rstrip (s : string) : ink (Py.rstrip s) = ink s.
Proof.
  induction s as [|c s IH]; simpl; [reflexivity|].
  destruct (Py.rstrip s) as [|d r] eqn:E.
  - simpl in IH. rewrite <- IH. destruct (Py.isspace c) eqn:Ec; simpl; now rewrite ?Ec.
  - rewrite <- IH. reflexivity.
Qed.

Lemma ink_strip (s : string) : ink (Py.strip s) = ink s.
Proof. unfold Py.strip. now rewrite ink_lstrip, ink_rstrip. Qed.

Lemma ink_lower (s : string) : ink (Py.lower s) = ink s.
Proof.
  induction s as [|c s IH]; simpl; [reflexivity|].
  now rewrite isspace_lower_char, IH.
Qed.

Lemma ink_blank (s : string) : blank s = false -> 0 < ink s.
Proof.
  induction s as [|c s IH]; simpl; [discriminate|].
  destruct (Py.isspace c); simpl; [exact IH | lia].
Qed.

Lemma first_ink_app (a b : string) :
  first_ink (a ++ b) = match first_ink a with Some c => Some c | None => first_ink b end.
Proof.
  induction a as [|c a IH]; simpl; [reflexivity|].
  destruct (Py.isspace c); [exact IH | reflexivity].
Qed.

Lemma first_ink_lstrip (s : string) : first_ink (Py.lstrip s) = first_ink s.
Proof.
  induction s as [|c s IH]; simpl; [reflexivity|].
  destruct (Py.isspace c) eqn:E; simpl; [exact IH | now rewrite E].
Qed.

Lemma first_ink_rstrip (s : string) : first_ink (Py.rstrip s) = first_ink s.
Proof.
  induction s as [|c s IH]; simpl; [reflexivity|].
  destruct (Py.rstrip s) as [|d r] eqn:E.
  - simpl in IH. rewrite <- IH. destruct (Py.isspace c) eqn:Ec; simpl; now rewrite ?Ec.
  - rewrite <- IH. reflexivity.
Qed.

Lemma first_ink_strip (s : string) : first_ink (Py.strip s) = first_ink s.
Proof. unfold Py.strip. now rewrite first_ink_lstrip, first_ink_rstrip. Qed.

Lemma first_ink_lower (s : string) :
  first_ink (Py.lower s) = option_map Py.lower_char (first_ink s).
Proof.
  induction s as [|c s IH]; simpl; [reflexivity|].
  rewrite isspace_lower_char. destruct (Py.isspace c); [exact IH | reflexivity].
Qed.

Lemma first_ink_none (s : string) : first_ink s = None -> ink s = 0.
Proof.
  induction s as [|c s IH]; simpl; [reflexivity|].
  destruct (Py.isspace c); [exact IH | discriminate].
Qed.

(** A text followed by more ink cannot read as a sentinel both with and
    without what follows. *)
Lemma sentinel_text_not_prefix (t later : string) :
  blank later = false ->
  sentinel_text (t ++ later) ->
  ~ sentinel_text t.
Proof.
  intros Hb Hfull Ht.
  pose proof (ink_blank _ Hb) as Hink.
  assert (Hn : forall u v, Py.lower (Py.strip u) = v -> ink u = ink v).
  { intros u v <-. now rewrite ink_lower, ink_strip. }
  assert (Hf : forall u v, Py.lower (Py.strip u) = v ->
               option_map Py.lower_char (first_ink u) = first_ink v).
  { intros u v <-. now rewrite first_ink_lower, first_ink_strip. }
  assert (Hfi : first_ink (t ++ later) = first_ink t).
  { rewrite first_ink_app. destruct (first_ink t) eqn:E; [reflexivity|].
    apply first_ink_none in E.
    destruct Ht as [Ht|Ht]; apply Hn in Ht; rewrite E in Ht; discriminate. }
  destruct Hfull as [Hfull|Hfull], Ht as [Ht|Ht];
    pose proof (Hn _ _ Hfull) as N1; pose proof (Hn _ _ Ht) as N2;
    rewrite ink_app in N1; simpl in N1, N2; try lia.
  apply Hf in Hfull. apply Hf in Ht. rewrite Hfi, Ht in Hfull. discriminate.
Qed.

Lemma spans_text_cons (rt : rich_text_obj) (spans : list rich_text_obj) :
  spans_text (rt :: spans) = text_of rt ++ spans_text spans.
Proof.
  unfold spans_text. change (rt :: spans) with ([rt] ++ spans)%list.
  now rewrite map_app, join_empty_app.
Qed.

(** What the loop does with a block it classifies as ordinary. *)
Lemma filter_loop_ordinary (b : block) (in_resume found : bool)
  (filtered rest : list block) :
  classify b = Returns Ordinary ->
  filter_loop in_resume found filtered (b :: rest)
  = filter_loop in_resume found
      (if negb found || in_resume then (filtered ++ [b])%list else filtered) rest.
Proof.
  intros H. simpl. rewrite H. simpl.
  destruct (negb found || in_resume); reflexivity.
Qed.

Lemma classify_not_heading (b : block) :
  type_is (b_type b) "heading_1" = false -> classify b = Returns Ordinary.
Proof. intros H. unfold classify. now rewrite H. Qed.

(** C3, evaluated on the code.  For blocks A, B, C that are not level-1
    headings and any block D, the region filter maps
    [A, H1("For Resume"), B, C, H1("Not For Resume"), D] to [A, B, C]:
    the block before the "For Resume" sentinel is kept, so the result is
    not the [B, C] of the claim and of the docstring of
    [filter_for_resume_region]. *)
Theorem filter_for_resume_region_example (A B C D : block) :
  type_is (b_type A) "heading_1" = false ->
  type_is (b_type B) "heading_1" = false ->
  type_is (b_type C) "heading_1" = false ->
  let blocks := [A; heading_1 "For Resume"; B; C; heading_1 "Not For Resume"; D] in
  filter_for_resume_region blocks = Returns [A; B; C]
  /\ filter_for_resume_region blocks <> Returns [B; C].
Proof.
  intros HA HB HC blocks.
  assert (E : filter_for_resume_region blocks = Returns [A; B; C]).
  { unfold blocks, filter_for_resume_region.
    rewrite (filter_loop_ordinary A) by now apply classify_not_heading.
    cbn [negb orb app].
    change (filter_loop true false [A] (heading_1 "For Resume" :: ?r))
      with (filter_loop true true [A] r).
    rewrite (filter_loop_ordinary B) by now apply classify_not_heading.
    rewrite (filter_loop_ordinary C) by now apply classify_not_heading.
    reflexivity. }
  split; [exact E|].
  rewrite E. intros H. inversion H.
Qed.

Lemma filter_for_resume_region_example_witness :
  let p t := mkBlock (Some "paragraph")
               (Some (mkPayload (Some [mkRT (Some t) None None]) None)) false None [] in
  filter_for_resume_region
    [p "A"; heading_1 "For Resume"; p "B"; p "C"; heading_1 "Not For Resume"; p "D"]
  = Returns [p "A"; p "B"; p "C"].
Proof.
  intros p.
  exact (proj1 (filter_for_resume_region_example (p "A") (p "B") (p "C") (p "D")
                  eq_refl eq_refl eq_refl)).
Defined.

(** C9.  The region filter reads only the first span of a level-1
    heading.  For every level-1 heading with two or more spans whose
    whole text (all spans together, trimmed, any letter case) is a
    sentinel while part of that text lies in the spans after the first
    (they are not blank), the heading is not taken for a sentinel: it is
    classified as an ordinary block and the loop handles it as such,
    appending it under the inclusion test and going on with the next
    block. *)
Theorem filter_split_sentinel_is_ordinary
  (b : block) (p : payload) (first second : rich_text_obj) (more : list rich_text_obj)
  (in_resume found : bool) (filtered rest : list block) :
  b_type b = Some "heading_1" ->
  b_payload b = Some p ->
  rich_text p = Some (first :: second :: more) ->
  sentinel_text (spans_text (first :: second :: more)) ->
  blank (spans_text (second :: more)) = false ->
  classify b = Returns Ordinary
  /\ filter_loop in_resume found filtered (b :: rest)
     = filter_loop in_resume found
         (if negb found || in_resume then (filtered ++ [b])%list else filtered) rest.
Proof.
  intros Ht Hp Hr Hs Hb.
  assert (Hc : classify b = Returns Ordinary).
  { rewrite spans_text_cons in Hs.
    pose proof (sentinel_text_not_prefix _ _ Hb Hs) as Hn.
    unfold classify, heading_1_text, subscript_payload.
    rewrite Ht, Hp. cbn [type_is bind]. rewrite String.eqb_refl. cbn [bind]. rewrite Hr.
    change (match plain_text first with Some s => s | None => "" end) with (text_of first).
    unfold sentinel_text in Hn.
    destruct (String.eqb_spec (Py.lower (Py.strip (text_of first))) "for resume") as [E|_];
      [exfalso; apply Hn; now left|].
    destruct (String.eqb_spec (Py.lower (Py.strip (text_of first))) "not for resume") as [E|_];
      [exfalso; apply Hn; now right|].
    reflexivity. }
  split; [exact Hc | now apply filter_loop_ordinary].
Qed.

Lemma filter_split_sentinel_is_ordinary_witness :
  let b := mkBlock (Some "heading_1")
             (Some (mkPayload (Some [mkRT (Some "For ") None None;
                                     mkRT (Some "Resume") None None]) None))
             false None [] in
  filter_for_resume_region [b] = Returns [b].
Proof.
  intros b.
  exact (proj2 (filter_split_sentinel_is_ordinary b
                  (mkPayload (Some [mkRT (Some "For ") None None;
                                    mkRT (Some "Resume") None None]) None)
                  (mkRT (Some "For ") None None) (mkRT (Some "Resume") None None) []
                  true false [] [] eq_refl eq_refl eq_refl
                  (or_introl eq_refl) eq_refl)).
Defined.

(** ** Block converter *)





Lemma mapM_ext_in {A B : Type} (f g : A -> outcome B) (l : list A) :
  (forall x, In x l -> f x = g x) -> mapM f l = mapM g l.
Proof.
  induction l as [|a l IH]; intros H; simpl; [reflexivity|].
  rewrite (H a (or_introl eq_refl)), IH; [reflexivity|].
  intros x Hx. apply H. now right.
Qed.




Lemma paragraph_like_not_list (tp : option string) :
  is_list_item tp = true -> paragraph_like tp = false.
Proof.
  destruct tp as [t|]; [|discriminate]. unfold is_list_item, paragraph_like, type_in.
  cbn [existsb type_is]. rewrite !orb_false_r.
  intros H. apply orb_true_iff in H as [H|H]; apply String.eqb_eq in H; subst; reflexivity.
Qed.


(** *** More fuel never changes an outcome *)













(** ** Date range resolver *)

Lemma key_lt_le (a b : date_key) : key_lt a b = true -> key_le a b.
Proof. unfold key_lt, key_le. lia. Qed.

Lemma key_nlt_le (a b : date_key) : key_lt a b = false -> key_le b a.
Proof. unfold key_lt, key_le. lia. Qed.

Lemma key_le_refl (a : date_key) : key_le a a.
Proof. unfold key_le. lia. Qed.

Lemma key_le_trans (a b c : date_key) : key_le a b -> key_le b c -> key_le a c.
Proof. unfold key_le. lia. Qed.

Section MinMax.

Context {A : Type} (key : A -> date_key).

Lemma min_from_spec (l : list A) : forall best,
  In (min_from key best l) (best :: l) /\
  forall x, In x (best :: l) -> key_le (key (min_from key best l)) (key x).
Proof.
  induction l as [|y l IH]; intros best; simpl.
  - split; [now left|]. intros x [<-|[]]. apply key_le_refl.
  - destruct (key_lt (key y) (key best)) eqn:E.
    + destruct (IH y) as [Hin Hle]. split.
      * destruct Hin as [<-|Hin]; [right; now left | right; now right].
      * intros x [<-|[<-|Hx]].
        -- eapply key_le_trans; [apply Hle; now left | now apply key_lt_le].
        -- apply Hle. now left.
        -- apply Hle. now right.
    + destruct (IH best) as [Hin Hle]. split.
      * destruct Hin as [<-|Hin]; [now left | right; now right].
      * intros x [<-|[<-|Hx]].
        -- apply Hle. now left.
        -- eapply key_le_trans; [apply Hle; now left | now apply key_nlt_le].
        -- apply Hle. now right.
Qed.

Lemma max_from_spec (l : list A) : forall best,
  In (max_from key best l) (best :: l) /\
  forall x, In x (best :: l) -> key_le (key x) (key (max_from key best l)).
Proof.
  induction l as [|y l IH]; intros best; simpl.
  - split; [now left|]. intros x [<-|[]]. apply key_le_refl.
  - destruct (key_lt (key best) (key y)) eqn:E.
    + destruct (IH y) as [Hin Hle]. split.
      * destruct Hin as [<-|Hin]; [right; now left | right; now right].
      * intros x [<-|[<-|Hx]].
        -- eapply key_le_trans; [apply key_lt_le; exact E | apply Hle; now left].
        -- apply Hle. now left.
        -- apply Hle. now right.
    + destruct (IH best) as [Hin Hle]. split.
      * destruct Hin as [<-|Hin]; [now left | right; now right].
      * intros x [<-|[<-|Hx]].
        -- apply Hle. now left.
        -- eapply key_le_trans; [apply key_nlt_le; exact E | apply Hle; now left].
        -- apply Hle. now right.
Qed.

End MinMax.

Lemma split_once_none (sep s : string) :
  Py.contains sep s = false -> Py.split_once sep s = None.
Proof.
  induction s as [|c s IH]; cbn [Py.contains Py.split_once]; intros H;
    apply orb_false_iff in H as [Hp H]; rewrite Hp; [reflexivity|].
  now rewrite IH.
Qed.

Lemma split_once_some (sep s : string) :
  Py.contains sep s = true -> exists a b, Py.split_once sep s = Some (a, b).
Proof.
  induction s as [|c s IH]; cbn [Py.contains Py.split_once]; intros H.
  - rewrite orb_false_r in H. rewrite H. eauto.
  - destruct (prefix sep (String c s)); [eauto|]. cbn [orb] in H.
    destruct (IH H) as (a & b & ->). eauto.
Qed.

(** The two lists the source fills are the two sides of the parsed
    pairs. *)
Lemma collect_dates_parsed (override_text : string) :
  collect_dates (split_ranges (normalize_dashes override_text))
  = (map fst (parsed_ranges override_text), map snd (parsed_ranges override_text)).
Proof.
  unfold parsed_ranges.
  induction (split_ranges (normalize_dashes override_text)) as [|r l IH];
    [reflexivity|].
  cbn [collect_dates flat_map]. rewrite IH.
  destruct (Py.contains " -- " r) eqn:E.
  - destruct (split_once_some _ _ E) as (a & b & ->). reflexivity.
  - now rewrite (split_once_none _ _ E).
Qed.


(** The resolution of a multi-range override, the fact shared by the
    claims about it. *)
Lemma multi_range_resolution (override_text : string) :
  Py.contains "," (normalize_dashes override_text) = true ->
  parsed_ranges override_text <> [] ->
  let starts := map fst (parsed_ranges override_text) in
  let ends := map snd (parsed_ranges override_text) in
  exists s e,
    parse_date_override override_text = (s, Some e) /\
    earliest s starts /\
    ((exists c, In c ends /\ not_present c = true) -> latest_concrete e ends) /\
    ((forall c, In c ends -> not_present c = false) -> e = "Present").
Proof.
  intros Hcomma Hne starts ends.
  unfold parse_date_override. rewrite Hcomma, collect_dates_parsed.
  fold starts ends.
  destruct (parsed_ranges override_text) as [|[a b] P] eqn:EP; [congruence|].
  subst starts ends. cbn [map fst snd].
  set (starts := map fst P). set (ends := map snd P).
  eexists _, _. split; [reflexivity|]. split; [|split].
  - apply (min_from_spec parse_date_for_sorting).
  - intros (c & Hc & Hcp).
    destruct (filter not_present (b :: ends)) as [|e0 es] eqn:Ef.
    + assert (H : In c (filter not_present (b :: ends))) by (apply filter_In; now split).
      rewrite Ef in H. destruct H.
    + destruct (max_from_spec parse_date_for_sorting es e0) as [Hin Hmax].
      rewrite <- Ef in Hin. apply filter_In in Hin as [Hin Hnp].
      repeat split; try assumption.
      intros c' Hc' Hnp'. apply Hmax. rewrite <- Ef. apply filter_In. now split.
  - intros Hall.
    destruct (filter not_present (b :: ends)) as [|e0 es] eqn:Ef; [reflexivity|].
    assert (H : In e0 (filter not_present (b :: ends))) by (rewrite Ef; now left).
    apply filter_In in H as [H1 H2]. rewrite (Hall _ H1) in H2. discriminate.
Qed.



(** C2, as the code has it.  For every multi-range override, ASCII apart
    from em and en dashes, with both a range with a concrete end and a
    range ending in "Present", [parse_date_override] resolves the start
    to an earliest start and the end to a latest concrete end, never to
    "Present": a concrete end takes priority.  On
    "Jan 2020 -- Dec 2021, Jan 2023 -- Present" the result is start
    "Jan 2020" and end "Dec 2021". *)
Theorem parse_date_override_concrete_end_wins :
  (forall override_text,
     dash_ascii override_text = true ->
     Py.contains "," (normalize_dashes override_text) = true ->
     (exists p, In p (parsed_ranges override_text) /\ not_present (snd p) = true) ->
     (exists p, In p (parsed_ranges override_text) /\ not_present (snd p) = false) ->
     exists s e,
       parse_date_override override_text = (s, Some e) /\
       earliest s (map fst (parsed_ranges override_text)) /\
       latest_concrete e (map snd (parsed_ranges override_text)) /\
       Py.lower e <> "present")
  /\ parse_date_override "Jan 2020 -- Dec 2021, Jan 2023 -- Present"
     = ("Jan 2020", Some "Dec 2021").
Proof.
  split; [|reflexivity].
  intros text _ Hcomma (p & Hp & Hc) _.
  destruct (multi_range_resolution text Hcomma) as (s & e & E & Hs & He & _).
  { intros Hnil. rewrite Hnil in Hp. destruct Hp. }
  assert (Hl : latest_concrete e (map snd (parsed_ranges text))).
  { apply He. exists (snd p). split; [now apply in_map | exact Hc]. }
  exists s, e. split; [exact E|]. split; [exact Hs|]. split; [exact Hl|].
  destruct Hl as (_ & Hnp & _). unfold not_present in Hnp.
  intros Heq. rewrite Heq in Hnp. discriminate.
Qed.

Lemma parse_date_override_concrete_end_wins_witness :
  let text := "Jan 2020 -- Dec 2021, Jan 2023 -- Present" in
  exists s e,
    parse_date_override text = (s, Some e) /\
    earliest s ["Jan 2020"; "Jan 2023"] /\
    latest_concrete e ["Dec 2021"; "Present"] /\
    Py.lower e <> "present".
Proof.
  intros text.
  exact (proj1 parse_date_override_concrete_end_wins text eq_refl eq_refl
           (ex_intro _ ("Jan 2020", "Dec 2021") (conj (or_introl eq_refl) eq_refl))
           (ex_intro _ ("Jan 2023", "Present")
              (conj (or_intror (or_introl eq_refl)) eq_refl))).
Defined.

(** C2 as stated fails: on its own example the resolved end is
    "Dec 2021", not "Present". *)
Lemma parse_date_override_example_end_not_present :
  snd (parse_date_override "Jan 2020 -- Dec 2021, Jan 2023 -- Present") = Some "Dec 2021"
  /\ snd (parse_date_override "Jan 2020 -- Dec 2021, Jan 2023 -- Present")
     <> Some "Present".
Proof. split; [reflexivity | discriminate]. Qed.

(** ** Date-for-sorting parser *)

Lemma digit_not_space (c : ascii) : Py.is_digit c = true -> Py.isspace c = false.
Proof. destruct c as [[] [] [] [] [] [] [] []]; cbv; congruence. Qed.

Lemma split_ws_aux_token (ds : string) : forall cur,
  all_digits ds = true -> cur ++ ds <> "" ->
  Py.split_ws_aux cur ds = [cur ++ ds].
Proof.
  induction ds as [|c ds IH]; intros cur Hd Hne; cbn [Py.split_ws_aux].
  - rewrite append_nil_r in *. destruct cur; [congruence | reflexivity].
  - cbn [all_digits] in Hd. apply andb_true_iff in Hd as [Hc Hd].
    rewrite (digit_not_space c Hc), IH; try assumption.
    + now rewrite append_assoc.
    + rewrite append_assoc. cbn. destruct cur; discriminate.
Qed.

Lemma int_unsigned (c : ascii) (ds : string) :
  Py.is_digit c = true ->
  Py.int (String c ds)
  = match Py.int_digits 0 0 false (String c ds) with
    | Some (v, n) => if (n <=? Py.int_max_str_digits)%Z then Some (1 * v)%Z else None
    | None => None
    end.
Proof. destruct c as [[] [] [] [] [] [] [] []]; cbv [Py.is_digit nat_of_ascii]; cbn;
         (discriminate || reflexivity). Qed.

Lemma int_digits_all (ds : string) : forall acc n b,
  all_digits ds = true -> (b = true \/ ds <> "") ->
  Py.int_digits acc n b ds
  = Some (decimal_from acc ds, (n + Z.of_nat (String.length ds))%Z).
Proof.
  induction ds as [|c ds IH]; intros acc n b Hd Hb; cbn [Py.int_digits decimal_from].
  - destruct Hb as [->|Hb]; [|congruence]. cbn. now rewrite Z.add_0_r.
  - cbn [all_digits] in Hd. apply andb_true_iff in Hd as [Hc Hd].
    rewrite Hc, IH; [|assumption | now left].
    cbn [String.length]. f_equal. f_equal. lia.
Qed.

Lemma int_of_digits (ds : string) :
  ds <> "" -> all_digits ds = true ->
  (Z.of_nat (String.length ds) <= Py.int_max_str_digits)%Z ->
  Py.int ds = Some (decimal_value ds).
Proof.
  intros Hne Hd Hlen. destruct ds as [|c ds]; [congruence|].
  pose proof Hd as Hd'. cbn [all_digits] in Hd'. apply andb_true_iff in Hd' as [Hc _].
  rewrite (int_unsigned c ds Hc), (int_digits_all _ 0%Z 0%Z false Hd) by (right; discriminate).
  rewrite Z.add_0_l.
  destruct (Z.leb_spec (Z.of_nat (String.length (String c ds))) Py.int_max_str_digits);
    [|lia].
  now rewrite Z.mul_1_l.
Qed.

Lemma index_of_none (m : string) (l : list string) : ~ In m l -> index_of m l = None.
Proof.
  induction l as [|x l IH]; intros H; cbn [index_of]; [reflexivity|].
  destruct (String.eqb_spec x m) as [->|_]; [exfalso; apply H; now left|].
  rewrite IH; [reflexivity|]. intros Hin. apply H. now right.
Qed.

Lemma index_of_months (i : nat) (m : string) :
  nth_error MONTHS i = Some m -> index_of m MONTHS = Some i.
Proof.
  intros Hm.
  do 12 (destruct i as [|i]; [injection Hm as <-; reflexivity|]).
  destruct i; discriminate.
Qed.

(** The strings of the form "MonthAbbrev Year" are not caught by the
    first test and split into their two tokens. *)
Lemma month_year_tokens (m ds : string) :
  In m MONTHS -> ds <> "" -> all_digits ds = true ->
  m ++ " " ++ ds <> "" /\ Py.lower (m ++ " " ++ ds) <> "present"
  /\ Py.split_ws (m ++ " " ++ ds) = [m; ds].
Proof.
  intros Hm Hne Hd.
  assert (Htok : Py.split_ws_aux "" ds = [ds]).
  { now apply (split_ws_aux_token ds ""). }
  cbn [MONTHS In] in Hm.
  repeat (destruct Hm as [<-|Hm];
          [repeat split; try discriminate; unfold Py.split_ws; cbn; now rewrite Htok|]).
  destruct Hm.
Qed.

(** C6, as the code has it.  [parse_date_for_sorting] returns (9999, 12)
    for "present" in any letter case and for the empty string.  For any
    other string made of two whitespace-separated tokens whose second
    [int] accepts as the year, it returns (year, month) when the first
    token is a month abbreviation of the table and (year, 0) when it is
    not; a string "MonthAbbrev Year" with the year in decimal digits (at
    most the 4300 digits [int] converts) is of the first kind.  It
    returns (0, 0) for every other string.  The cases that read the
    string as tokens are stated for ASCII strings, on which [split] and
    [int] are Python's. *)
Theorem parse_date_for_sorting_cases :
  (forall s, Py.lower s = "present" -> parse_date_for_sorting s = (9999, 12)%Z)
  /\ parse_date_for_sorting "" = (9999, 12)%Z
  /\ (forall s m y year i,
        isascii s = true ->
        s <> "" -> Py.lower s <> "present" ->
        Py.split_ws s = [m; y] -> Py.int y = Some year ->
        nth_error MONTHS i = Some m ->
        parse_date_for_sorting s = (year, Z.of_nat i + 1)%Z)
  /\ (forall i m ds,
        nth_error MONTHS i = Some m -> ds <> "" -> all_digits ds = true ->
        (Z.of_nat (String.length ds) <= Py.int_max_str_digits)%Z ->
        parse_date_for_sorting (m ++ " " ++ ds) = (decimal_value ds, Z.of_nat i + 1)%Z)
  /\ (forall s m y year,
        isascii s = true ->
        s <> "" -> Py.lower s <> "present" ->
        Py.split_ws s = [m; y] -> Py.int y = Some year -> ~ In m MONTHS ->
        parse_date_for_sorting s = (year, 0)%Z)
  /\ (forall s,
        isascii s = true ->
        s <> "" -> Py.lower s <> "present" ->
        (forall m y, Py.split_ws s = [m; y] -> Py.int y = None) ->
        parse_date_for_sorting s = (0, 0)%Z).
Proof.
  assert (Hguard : forall s, s <> "" -> Py.lower s <> "present" ->
            (String.eqb s "" || String.eqb (Py.lower s) "present") = false).
  { intros s H1 H2. apply orb_false_iff. split; now apply String.eqb_neq. }
  assert (Hmonth : forall s m y year i,
            s <> "" -> Py.lower s <> "present" ->
            Py.split_ws s = [m; y] -> Py.int y = Some year ->
            nth_error MONTHS i = Some m ->
            parse_date_for_sorting s = (year, Z.of_nat i + 1)%Z).
  { intros s m y year i H1 H2 Hs Hy Hm. unfold parse_date_for_sorting.
    now rewrite (Hguard s H1 H2), Hs, Hy, (index_of_months i m Hm). }
  split; [|split; [|split; [|split; [|split]]]].
  - intros s H. unfold parse_date_for_sorting. rewrite H. cbn [String.eqb].
    now rewrite orb_true_r.
  - reflexivity.
  - intros s m y year i _. apply Hmonth.
  - intros i m ds Hm Hne Hd Hlen.
    destruct (month_year_tokens m ds (nth_error_In _ _ Hm) Hne Hd) as (H1 & H2 & Hs).
    exact (Hmonth _ m ds _ i H1 H2 Hs (int_of_digits ds Hne Hd Hlen) Hm).
  - intros s m y year _ H1 H2 Hs Hy Hm. unfold parse_date_for_sorting.
    now rewrite (Hguard s H1 H2), Hs, Hy, (index_of_none m MONTHS Hm).
  - intros s _ H1 H2 Hno. unfold parse_date_for_sorting. rewrite (Hguard s H1 H2).
    destruct (Py.split_ws s) as [|m [|y [|z l]]]; try reflexivity.
    now rewrite (Hno m y eq_refl).
Qed.

Lemma parse_date_for_sorting_cases_witness :
  parse_date_for_sorting "PRESENT" = (9999, 12)%Z
  /\ parse_date_for_sorting " Jun  +2_019" = (2019, 6)%Z
  /\ parse_date_for_sorting "Jun 2019" = (2019, 6)%Z
  /\ parse_date_for_sorting "Spring 2020" = (2020, 0)%Z
  /\ parse_date_for_sorting "2020-06" = (0, 0)%Z.
Proof.
  destruct parse_date_for_sorting_cases as (H1 & _ & H3 & H4 & H5 & H6).
  split; [|split; [|split; [|split]]].
  - apply (H1 "PRESENT" eq_refl).
  - apply (H3 " Jun  +2_019" "Jun" "+2_019" 2019%Z 5);
      [reflexivity | discriminate | discriminate | reflexivity | reflexivity
      | reflexivity].
  - apply (H4 5 "Jun" "2019" eq_refl); [discriminate | reflexivity | vm_compute; discriminate].
  - apply (H5 "Spring 2020" "Spring" "2020" 2020%Z);
      [reflexivity | discriminate | discriminate | reflexivity | reflexivity |].
    cbn. intuition discriminate.
  - apply (H6 "2020-06"); [reflexivity | discriminate | discriminate |].
    intros m y H. discriminate H.
Defined.

(** C6 as stated fails: "Foo 2020" and the empty string are neither of
    the form "MonthAbbrev Year" nor "present", and neither is mapped to
    (0, 0). *)
Lemma parse_date_for_sorting_other_not_sink :
  (~ month_year_form "Foo 2020" /\ Py.lower "Foo 2020" <> "present" /\
   parse_date_for_sorting "Foo 2020" = (2020, 0)%Z /\
   parse_date_for_sorting "Foo 2020" <> (0, 0)%Z)
  /\
  (~ month_year_form "" /\ Py.lower "" <> "present" /\
   parse_date_for_sorting "" = (9999, 12)%Z /\
   parse_date_for_sorting "" <> (0, 0)%Z).
Proof.
  assert (H : forall s, (forall m, In m MONTHS -> forall ds, s <> m ++ " " ++ ds) ->
                        ~ month_year_form s).
  { intros s Hs (m & ds & Hm & _ & _ & E). exact (Hs m Hm ds E). }
  split; (split; [apply H; cbn; intros m Hm ds; intuition (subst; discriminate)|]);
    (split; [discriminate|]); (split; [reflexivity | discriminate]).
Qed.

(** ** Overrides without a separator *)

Lemma prefix_app (sub a w : string) : prefix sub a = true -> prefix sub (a ++ w) = true.
Proof.
  revert sub. induction a as [|c a IH]; intros [|d sub]; cbn; try discriminate.
  - now destruct w.
  - reflexivity.
  - destruct (ascii_dec d c); [apply IH | discriminate].
Qed.

Lemma contains_app_l (sub a w : string) :
  Py.contains sub a = true -> Py.contains sub (a ++ w) = true.
Proof.
  induction a as [|c a IH]; cbn [Py.contains append]; intros H.
  - rewrite orb_false_r in H. apply (prefix_app sub "" w) in H. cbn [append] in H.
    destruct w; cbn [Py.contains]; rewrite H; reflexivity.
  - apply orb_true_iff in H as [H|H].
    + apply (prefix_app sub _ w) in H. cbn [append] in H. now rewrite H.
    + rewrite (IH H). apply orb_true_r.
Qed.

Lemma contains_app_r (sub w b : string) :
  Py.contains sub b = true -> Py.contains sub (w ++ b) = true.
Proof.
  induction w as [|c w IH]; cbn [Py.contains append]; intros H; [exact H|].
  rewrite (IH H). apply orb_true_r.
Qed.

Lemma lstrip_suffix (s : string) : exists w, s = w ++ Py.lstrip s.
Proof.
  induction s as [|c s [w IH]]; cbn [Py.lstrip]; [now exists ""|].
  destruct (Py.isspace c); [|now exists ""].
  exists (String c w). cbn. now rewrite <- IH.
Qed.

Lemma rstrip_prefix (s : string) : exists w, s = Py.rstrip s ++ w.
Proof.
  induction s as [|c s [w IH]]; cbn [Py.rstrip]; [now exists ""|].
  destruct (Py.rstrip s) as [|d r].
  - cbn in IH. destruct (Py.isspace c); [now exists (String c s)|].
    exists w. cbn. now rewrite <- IH.
  - exists w. change (String c s = String c (String d r ++ w)). now rewrite <- IH.
Qed.

Lemma contains_strip (sub s : string) :
  Py.contains sub (Py.strip s) = true -> Py.contains sub s = true.
Proof.
  unfold Py.strip. intros H.
  destruct (lstrip_suffix (Py.rstrip s)) as [w Hw].
  destruct (rstrip_prefix s) as [w' Hw'].
  rewrite Hw'. apply contains_app_l. rewrite Hw. now apply contains_app_r.
Qed.

Lemma split_char_pieces (c : ascii) (s : string) :
  exists h t, Py.split_char c s = h :: t /\
    (exists post, s = h ++ post) /\
    (forall r, In r t -> exists pre post, s = pre ++ r ++ post).
Proof.
  induction s as [|a s (h & t & E & [post Hh] & Ht)]; cbn [Py.split_char].
  - exists "", []. repeat split; [now exists "" | intros r []].
  - destruct (Ascii.eqb a c).
    + exists "", (Py.split_char c s). repeat split; [now exists (String a s)|].
      rewrite E. intros r [<-|Hr].
      * exists (String a ""), post. cbn. now rewrite <- Hh.
      * destruct (Ht r Hr) as (pre & post' & Hs).
        exists (String a pre), post'. cbn. now rewrite <- Hs.
    + rewrite E. exists (String a h), t. repeat split.
      * exists post. cbn. now rewrite <- Hh.
      * intros r Hr. destruct (Ht r Hr) as (pre & post' & Hs).
        exists (String a pre), post'. cbn. now rewrite <- Hs.
Qed.

Lemma contains_split_char (sub : string) (c : ascii) (s r : string) :
  In r (Py.split_char c s) -> Py.contains sub r = true -> Py.contains sub s = true.
Proof.
  intros Hin Hc. destruct (split_char_pieces c s) as (h & t & E & [post Hh] & Ht).
  rewrite E in Hin. destruct Hin as [<-|Hin].
  - rewrite Hh. now apply contains_app_l.
  - destruct (Ht r Hin) as (pre & post' & ->).
    apply contains_app_r. now apply contains_app_l.
Qed.

(** Without a separator in the normalised text no sub-range is parsed. *)
Lemma parsed_ranges_no_separator (override_text : string) :
  Py.contains " -- " (normalize_dashes override_text) = false ->
  parsed_ranges override_text = [].
Proof.
  intros H. unfold parsed_ranges, split_ranges.
  assert (Hall : forall piece,
            In piece (Py.split_char "," (normalize_dashes override_text)) ->
            Py.split_once " -- " (Py.strip piece) = None).
  { intros piece Hin. apply split_once_none.
    destruct (Py.contains " -- " (Py.strip piece)) eqn:E; [|reflexivity].
    apply contains_strip in E. apply (contains_split_char _ _ _ _ Hin) in E.
    congruence. }
  induction (Py.split_char "," (normalize_dashes override_text)) as [|x l IH];
    [reflexivity|].
  cbn [map flat_map]. rewrite (Hall x (or_introl eq_refl)), IH; [reflexivity|].
  intros piece Hp. apply Hall. now right.
Qed.

Lemma parse_date_override_no_separator (override_text : string) :
  Py.contains " -- " (normalize_dashes override_text) = false ->
  parse_date_override override_text = (Py.strip (normalize_dashes override_text), None).
Proof.
  intros H. unfold parse_date_override, single_range.
  rewrite collect_dates_parsed, (parsed_ranges_no_separator _ H), H.
  cbn [map]. now destruct (Py.contains "," (normalize_dashes override_text)).
Qed.

Lemma lstrip_idem (s : string) : Py.lstrip (Py.lstrip s) = Py.lstrip s.
Proof.
  induction s as [|c s IH]; cbn [Py.lstrip]; [reflexivity|].
  destruct (Py.isspace c) eqn:E; [exact IH | cbn [Py.lstrip]; now rewrite E].
Qed.

Lemma rstrip_cons (c : ascii) (s : string) :
  Py.rstrip (String c s)
  = match Py.rstrip s with
    | EmptyString => if Py.isspace c then EmptyString else String c EmptyString
    | r => String c r
    end.
Proof. reflexivity. Qed.

Lemma rstrip_idem (s : string) : Py.rstrip (Py.rstrip s) = Py.rstrip s.
Proof.
  induction s as [|c s IH]; [reflexivity|]. rewrite rstrip_cons.
  destruct (Py.rstrip s) as [|d r] eqn:E.
  - destruct (Py.isspace c) eqn:Ec; [reflexivity|]. cbn. now rewrite Ec.
  - now rewrite rstrip_cons, IH.
Qed.

Lemma rstrip_lstrip_fixed (s : string) :
  Py.rstrip s = s -> Py.rstrip (Py.lstrip s) = Py.lstrip s.
Proof.
  induction s as [|c s IH]; [reflexivity|].
  intros H. cbn [Py.lstrip]. destruct (Py.isspace c) eqn:Ec; [|exact H].
  apply IH. rewrite rstrip_cons, Ec in H.
  destruct (Py.rstrip s) as [|d r]; [discriminate | congruence].
Qed.

Lemma strip_idem (s : string) : Py.strip (Py.strip s) = Py.strip s.
Proof.
  unfold Py.strip.
  rewrite (rstrip_lstrip_fixed (Py.rstrip s) (rstrip_idem s)). apply lstrip_idem.
Qed.

(** C8.  For every property bag with a text or rich-text date override,
    ASCII apart from em and en dashes, that is not blank, the trimmed raw
    override is the third output.  When the override contains no
    separator, that is when its text with the dashes normalised (em and
    en dashes replaced by "--") contains no [" -- "], the start is the
    whole trimmed text, dashes normalised, and the end is absent; the
    start is the trimmed raw override itself when it has no dash to
    normalise. *)
Theorem get_date_range_override_without_separator
  (fromisoformat : string -> option (Z * Z)) (p : props) (o : override_prop) :
  date_override p = Some o ->
  type_in (o_type o) ["text"; "rich_text"] = true ->
  dash_ascii (override_text_of o) = true ->
  let raw := Py.strip (override_text_of o) in
  raw <> "" ->
  snd (get_date_range fromisoformat p) = Some raw
  /\ (Py.contains " -- " (normalize_dashes raw) = false ->
      get_date_range fromisoformat p
      = (Some (Py.strip (normalize_dashes raw)), None, Some raw))
  /\ (Py.contains " -- " (normalize_dashes raw) = false ->
      normalize_dashes raw = raw ->
      get_date_range fromisoformat p = (Some raw, None, Some raw)).
Proof.
  intros Ho Ht _ raw Hraw.
  assert (E : get_date_range fromisoformat p
              = (let (start_d, end_d) := parse_date_override raw in
                 (Some start_d, end_d, Some raw))).
  { unfold get_date_range. rewrite Ho, Ht. fold raw.
    apply String.eqb_neq in Hraw. now rewrite Hraw. }
  rewrite E. repeat split.
  - now destruct (parse_date_override raw).
  - intros H. now rewrite (parse_date_override_no_separator raw H).
  - intros H Hn. rewrite (parse_date_override_no_separator raw H), Hn.
    unfold raw. now rewrite strip_idem.
Qed.

Lemma get_date_range_override_without_separator_witness :
  get_date_range (fun _ => None) (override_only " Summer 2020 ")
  = (Some "Summer 2020", None, Some "Summer 2020")
  /\ get_date_range (fun _ => None) (override_only (" 2020" ++ en_dash ++ "2021"))
     = (Some "2020--2021", None, Some ("2020" ++ en_dash ++ "2021")).
Proof.
  split.
  - exact (proj2 (proj2 (get_date_range_override_without_separator (fun _ => None)
                           (override_only " Summer 2020 ")
                           (mkOverride (Some "rich_text") None
                              (Some [mkRT (Some " Summer 2020 ") None None]))
                           eq_refl eq_refl eq_refl ltac:(discriminate)))
             eq_refl eq_refl).
  - exact (proj1 (proj2 (get_date_range_override_without_separator (fun _ => None)
                           (override_only (" 2020" ++ en_dash ++ "2021"))
                           (mkOverride (Some "rich_text") None
                              (Some [mkRT (Some (" 2020" ++ en_dash ++ "2021")) None None]))
                           eq_refl eq_refl eq_refl ltac:(discriminate)))
             eq_refl).
Defined.

(** The start is the text with its dashes normalised, the third output
    the text as written: for the override "2020(en dash)2021", which has
    no [" -- "] separator, the start is "2020--2021" and the third
    output keeps the en dash. *)
Lemma get_date_range_start_is_normalised :
  let raw := "2020" ++ en_dash ++ "2021" in
  Py.contains " -- " raw = false
  /\ get_date_range (fun _ => None) (override_only raw)
     = (Some "2020--2021", None, Some raw)
  /\ fst (fst (get_date_range (fun _ => None) (override_only raw))) <> Some (Py.strip raw).
Proof. repeat split. discriminate. Qed.

(** ** Entry sorter *)

Section StableSort.

Context {A : Type} (key : A -> date_key).

Let ge (a b : A) : Prop := key_le (key b) (key a).

Lemma insert_reverse_perm (x : A) (l : list A) :
  Permutation (x :: l) (insert_reverse key x l).
Proof.
  induction l as [|y l IH]; cbn [insert_reverse]; [apply Permutation_refl|].
  destruct (key_lt (key x) (key y)); [|apply Permutation_refl].
  eapply perm_trans; [apply perm_swap | now apply perm_skip].
Qed.

Lemma sorted_reverse_perm (l : list A) : Permutation l (sorted_reverse key l).
Proof.
  induction l as [|x l IH]; cbn [sorted_reverse]; [apply perm_nil|].
  eapply perm_trans; [apply perm_skip, IH | apply insert_reverse_perm].
Qed.

Lemma insert_reverse_sorted (x : A) (l : list A) :
  StronglySorted ge l -> StronglySorted ge (insert_reverse key x l).
Proof.
  induction 1 as [|y l Hs IH Hy]; cbn [insert_reverse].
  - constructor; constructor.
  - destruct (key_lt (key x) (key y)) eqn:E.
    + constructor; [exact IH|].
      apply (Permutation_Forall (insert_reverse_perm x l)).
      constructor; [now apply key_lt_le | exact Hy].
    + constructor; [now constructor|].
      constructor; [now apply key_nlt_le|].
      apply (Forall_impl _ (P := ge y)); [|exact Hy].
      intros z Hz. unfold ge in *.
      eapply key_le_trans; [exact Hz | now apply key_nlt_le].
Qed.

Lemma sorted_reverse_sorted (l : list A) : StronglySorted ge (sorted_reverse key l).
Proof.
  induction l as [|x l IH]; cbn [sorted_reverse]; [constructor|].
  now apply insert_reverse_sorted.
Qed.

Lemma key_lt_neq (a b k : date_key) :
  key_lt a b = true -> key_eqb a k = true -> key_eqb b k = false.
Proof. unfold key_lt, key_eqb. lia. Qed.

Lemma insert_reverse_stable (k : date_key) (x : A) (l : list A) :
  filter (fun a => key_eqb (key a) k) (insert_reverse key x l)
  = filter (fun a => key_eqb (key a) k) (x :: l).
Proof.
  induction l as [|y l IH]; cbn [insert_reverse]; [reflexivity|].
  destruct (key_lt (key x) (key y)) eqn:E; [|reflexivity].
  cbn [filter] in *. rewrite IH.
  destruct (key_eqb (key x) k) eqn:Ex; [|reflexivity].
  now rewrite (key_lt_neq _ _ _ E Ex).
Qed.

Lemma sorted_reverse_stable (k : date_key) (l : list A) :
  filter (fun a => key_eqb (key a) k) (sorted_reverse key l)
  = filter (fun a => key_eqb (key a) k) l.
Proof.
  induction l as [|x l IH]; cbn [sorted_reverse]; [reflexivity|].
  rewrite insert_reverse_stable. cbn [filter]. now rewrite IH.
Qed.

End StableSort.

Lemma sorted_reverse_ext {A : Type} (key key' : A -> date_key) (l : list A) :
  (forall a, key a = key' a) -> sorted_reverse key l = sorted_reverse key' l.
Proof.
  intros H. induction l as [|x l IH]; cbn [sorted_reverse]; [reflexivity|].
  rewrite IH. generalize (sorted_reverse key' l) as m.
  induction m as [|y m IHm]; cbn [insert_reverse]; [reflexivity|].
  now rewrite !H, IHm.
Qed.

(** The key the sorter derives from an override is the key of the end
    [parse_date_override] resolves. *)
Lemma get_latest_end_date_from_override_resolved (c : ascii) (d : string) :
  get_latest_end_date_from_override (String c d) = override_end_key (String c d).
Proof.
  unfold get_latest_end_date_from_override, override_end_key, parse_date_override,
    single_range.
  cbn [String.eqb]. rewrite collect_dates_parsed. cbn [snd].
  set (n := normalize_dashes (String c d)).
  set (P := parsed_ranges (String c d)).
  assert (Hfall :
    (if Py.contains " -- " n
     then match Py.split_once " -- " n with
          | Some (_, end_part) => parse_date_for_sorting (Py.strip end_part)
          | None => parse_date_for_sorting (Py.strip n)
          end
     else parse_date_for_sorting (Py.strip n))
    = (let (s, o) :=
         if Py.contains " -- " n
         then match Py.split_once " -- " n with
              | Some (start_part, end_part) =>
                  (Py.strip start_part, Some (Py.strip end_part))
              | None => (Py.strip n, None)
              end
         else (Py.strip n, None) in
       match o with
       | Some e => parse_date_for_sorting e
       | None => parse_date_for_sorting s
       end)).
  { destruct (Py.contains " -- " n); [|reflexivity].
    now destruct (Py.split_once " -- " n) as [[a b]|]. }
  destruct (Py.contains "," n); [|exact Hfall].
  destruct P as [|[a b] P]; [exact Hfall|]. cbn [map fst snd].
  now destruct (filter not_present (b :: map snd P)).
Qed.

Lemma get_sort_date_effective (e : entry) : get_sort_date e = effective_date_key e.
Proof.
  unfold get_sort_date, effective_date_key, py_or.
  destruct (date_display e) as [[|c d]|]; cbn [Py.truthy value_of];
    try apply get_latest_end_date_from_override_resolved;
    destruct (end_date e) as [[|c' x]|]; cbn [Py.truthy value_of]; try reflexivity;
    destruct (start_date e) as [[|c'' y]|]; reflexivity.
Qed.

(** C5, as the code has it.  For every sequence of entries whose date
    fields are ASCII apart from em and en dashes, [sort_entries_by_date]
    returns the same entries ordered descending by the effective date
    key: the key of the latest end re-derived from the override when
    [date_display] is set, else the key of [end_date] when set, else the
    key of [start_date], else (0, 0).  The sort is stable: the entries
    of any one key come out in their original relative order.  An entry
    with neither date nor override has key (0, 0); it comes after every
    entry with a greater key, yet it need not be last: every entry in
    front of it has key (0, 0) or more, every entry behind it has key
    (0, 0) or less. *)
Theorem sort_entries_by_date_stable_descending (entries : list entry) :
  forallb ascii_dates entries = true ->
  let sorted := sort_entries_by_date entries in
  Permutation entries sorted
  /\ StronglySorted descending sorted
  /\ (forall k, filter (fun e => key_eqb (effective_date_key e) k) sorted
                = filter (fun e => key_eqb (effective_date_key e) k) entries)
  /\ (forall before e after,
        sorted = (before ++ e :: after)%list ->
        Py.truthy (date_display e) = false ->
        Py.truthy (end_date e) = false ->
        Py.truthy (start_date e) = false ->
        effective_date_key e = (0, 0)%Z
        /\ (forall x, In x before -> key_le (0, 0)%Z (effective_date_key x))
        /\ (forall x, In x after -> key_le (effective_date_key x) (0, 0)%Z)).
Proof.
  intros _ sorted.
  assert (E : sorted = sorted_reverse effective_date_key entries).
  { apply sorted_reverse_ext, get_sort_date_effective. }
  assert (Hs : StronglySorted descending sorted).
  { rewrite E. apply (sorted_reverse_sorted effective_date_key). }
  split; [rewrite E; apply sorted_reverse_perm|].
  split; [exact Hs|].
  split; [intros k; rewrite E; apply sorted_reverse_stable|].
  intros before e after Hsplit Hd He Hst.
  assert (Hk : effective_date_key e = (0, 0)%Z)
    by (unfold effective_date_key; now rewrite Hd, He, Hst).
  split; [exact Hk|].
  rewrite Hsplit in Hs. clear E Hsplit.
  induction before as [|b before IH].
  - split; [intros x []|].
    intros x Hx. cbn [app] in Hs. apply StronglySorted_inv in Hs as [_ Hall].
    rewrite Forall_forall in Hall. specialize (Hall x Hx).
    unfold descending in Hall. now rewrite Hk in Hall.
  - cbn [app] in Hs. apply StronglySorted_inv in Hs as [Hs Hall].
    destruct (IH Hs) as [Hb Ha]. split; [|exact Ha].
    intros x [<- | Hx]; [|now apply Hb].
    rewrite Forall_forall in Hall.
    assert (Hin : In e (before ++ e :: after)%list)
      by (apply in_or_app; right; now left).
    specialize (Hall e Hin). unfold descending in Hall. now rewrite Hk in Hall.
Qed.

Lemma sort_entries_by_date_stable_descending_witness :
  let entries :=
    [dated "a" None (Some "Dec 2021") None; dated "b" None None None;
     dated "c" None (Some "Present") None; dated "d" None (Some "Jun 2019") None;
     dated "e" (Some "Dec 2021") None None;
     dated "f" None None (Some "Jan 2020 -- Dec 2021, Jan 2023 -- Present");
     dated "g" None None (Some "2019 -- 2020");
     dated "h" None (Some "Jan -5") None] in
  map name (sort_entries_by_date entries) = ["c"; "a"; "e"; "f"; "d"; "b"; "g"; "h"]
  /\ (forall x, In x [dated "c" None (Some "Present") None;
                      dated "a" None (Some "Dec 2021") None;
                      dated "e" (Some "Dec 2021") None None;
                      dated "f" None None
                        (Some "Jan 2020 -- Dec 2021, Jan 2023 -- Present");
                      dated "d" None (Some "Jun 2019") None] ->
                 key_le (0, 0)%Z (effective_date_key x))
  /\ (forall x, In x [dated "g" None None (Some "2019 -- 2020");
                      dated "h" None (Some "Jan -5") None] ->
                 key_le (effective_date_key x) (0, 0)%Z).
Proof.
  intros entries. split; [reflexivity|].
  destruct (sort_entries_by_date_stable_descending entries eq_refl) as (_ & _ & _ & H).
  exact (proj2 (H [dated "c" None (Some "Present") None;
                   dated "a" None (Some "Dec 2021") None;
                   dated "e" (Some "Dec 2021") None None;
                   dated "f" None None
                     (Some "Jan 2020 -- Dec 2021, Jan 2023 -- Present");
                   dated "d" None (Some "Jun 2019") None]
                  (dated "b" None None None)
                  [dated "g" None None (Some "2019 -- 2020");
                   dated "h" None (Some "Jan -5") None]
                  eq_refl eq_refl eq_refl eq_refl)).
Defined.

(** C5 as stated fails: an entry with neither date nor override is not
    always placed last.  In front of an entry whose override "2019 --
    2020" has the key (0, 0) of an unparsable date, and in front of an
    entry whose end "Jan -5" has the key (-5, 1), it stays first. *)
Lemma sort_entries_by_date_undated_not_last :
  (sort_entries_by_date [dated "u" None None None;
                         dated "v" None None (Some "2019 -- 2020")]
   = [dated "u" None None None; dated "v" None None (Some "2019 -- 2020")]
   /\ effective_date_key (dated "v" None None (Some "2019 -- 2020")) = (0, 0)%Z)
  /\
  (sort_entries_by_date [dated "u" None None None;
                         dated "w" None (Some "Jan -5") None]
   = [dated "u" None None None; dated "w" None (Some "Jan -5") None]
   /\ effective_date_key (dated "w" None (Some "Jan -5") None) = (-5, 1)%Z)
  /\
  last (sort_entries_by_date [dated "u" None None None;
                              dated "w" None (Some "Jan -5") None])
       (dated "" None None None)
  <> dated "u" None None None.
Proof. repeat split. discriminate. Qed.

(** * Further properties of the code *)

(** ** Text escaper *)

Lemma length_app (a b : string) :
  String.length (a ++ b) = String.length a + String.length b.
Proof. induction a as [|c a IH]; cbn; [reflexivity | now rewrite IH]. Qed.

(** What [LATEX_SPECIALS.get(ch, ch)] can be. *)
Lemma specials_get_cases (c : ascii) :
  (reserved c = false /\ specials_get LATEX_SPECIALS c = String c "")
  \/ c = "\"%char \/ c = "{"%char \/ c = "}"%char \/ c = "$"%char \/ c = "&"%char
  \/ c = "#"%char \/ c = "%"%char \/ c = "_"%char \/ c = "~"%char \/ c = "^"%char.
Proof.
  destruct c as [[] [] [] [] [] [] [] []];
    first [ left; split; reflexivity | right; repeat (first [left; reflexivity | right]);
            reflexivity ].
Qed.

Lemma specials_get_length (c : ascii) :
  1 <= String.length (specials_get LATEX_SPECIALS c)
  /\ (reserved c = true -> 2 <= String.length (specials_get LATEX_SPECIALS c)).
Proof.
  destruct (specials_get_cases c) as [[Hr ->]|H].
  - split; [cbn; lia | intros H; rewrite Hr in H; discriminate H].
  - repeat (destruct H as [->|H]; [cbn; split; lia|]). subst. cbn. split; lia.
Qed.

Lemma latex_escape_length (t : string) :
  String.length t <= String.length (latex_escape t)
  /\ (has_reserved t = true -> String.length t < String.length (latex_escape t)).
Proof.
  induction t as [|c t [IH1 IH2]]; cbn [latex_escape has_reserved String.length].
  - split; [lia | discriminate].
  - rewrite length_app. destruct (specials_get_length c) as [H1 H2]. split; [lia|].
    intros H. apply orb_true_iff in H as [H|H]; [specialize (H2 H) | specialize (IH2 H)]; lia.
Qed.

(** X1.  [latex_escape] works character by character and in order: the
    escape of a concatenation is the concatenation of the escapes. *)
Theorem latex_escape_concat (a b : string) :
  latex_escape (a ++ b) = latex_escape a ++ latex_escape b.
Proof.
  induction a as [|c a IH]; cbn [latex_escape append]; [reflexivity|].
  now rewrite IH, append_assoc.
Qed.

(** X2.  [latex_escape] returns its input unchanged exactly when the
    input has no reserved character; otherwise the output is strictly
    longer than the input. *)
Theorem latex_escape_fixed_iff_safe (t : string) :
  (latex_escape t = t <-> has_reserved t = false)
  /\ (has_reserved t = true -> String.length t < String.length (latex_escape t)).
Proof.
  split; [split|].
  - intros E. destruct (has_reserved t) eqn:H; [|reflexivity].
    apply (proj2 (latex_escape_length t)) in H. rewrite E in H. lia.
  - induction t as [|c t IH]; cbn [latex_escape has_reserved]; [reflexivity|].
    intros H. apply orb_false_iff in H as [Hc Ht].
    destruct (specials_get_cases c) as [[_ ->]|Hs].
    + cbn. now rewrite IH.
    + repeat (destruct Hs as [->|Hs]; [discriminate Hc|]). subst. discriminate Hc.
  - apply latex_escape_length.
Qed.

Lemma latex_escape_fixed_iff_safe_witness :
  String.length "50% of A&B" < String.length (latex_escape "50% of A&B").
Proof. exact (proj2 (latex_escape_fixed_iff_safe "50% of A&B") eq_refl). Defined.

Lemma specials_get_inj (c d : ascii) (x y : string) :
  specials_get LATEX_SPECIALS c ++ x = specials_get LATEX_SPECIALS d ++ y ->
  c = d /\ x = y.
Proof.
  intros H.
  destruct (specials_get_cases c) as [[Hc Ec]|Hc];
    destruct (specials_get_cases d) as [[Hd Ed]|Hd].
  - rewrite Ec, Ed in H. cbn in H. injection H as -> ->. now split.
  - rewrite Ec in H. cbn [append] in H.
    repeat (destruct Hd as [->|Hd];
            [cbn in H; injection H as -> _; discriminate Hc|]).
    subst d. cbn in H. injection H as -> _. discriminate Hc.
  - rewrite Ed in H. cbn [append] in H.
    repeat (destruct Hc as [->|Hc];
            [cbn in H; injection H as <- _; discriminate Hd|]).
    subst c. cbn in H. injection H as <- _. discriminate Hd.
  - repeat (destruct Hc as [->|Hc];
            [repeat (destruct Hd as [->|Hd];
                     [cbn in H; first [discriminate H | injection H as ->; now split]|]);
             subst d; cbn in H; first [discriminate H | injection H as ->; now split]|]).
    subst c.
    repeat (destruct Hd as [->|Hd];
            [cbn in H; first [discriminate H | injection H as ->; now split]|]).
    subst d. cbn in H. injection H as ->. now split.
Qed.

(** X3.  [latex_escape] loses nothing: two texts with the same escape
    are the same text. *)
Theorem latex_escape_injective (a b : string) :
  latex_escape a = latex_escape b -> a = b.
Proof.
  revert b. induction a as [|c a IH]; intros [|d b] H; cbn [latex_escape] in H.
  - reflexivity.
  - exfalso. apply (f_equal String.length) in H. rewrite length_app in H.
    destruct (specials_get_length d) as [Hd _].
    change (String.length "") with 0 in H. lia.
  - exfalso. apply (f_equal String.length) in H. rewrite length_app in H.
    destruct (specials_get_length c) as [Hc _].
    change (String.length "") with 0 in H. lia.
  - apply specials_get_inj in H as [-> H]. now rewrite (IH b H).
Qed.

Lemma latex_escape_injective_witness : "a_b" = "a_b".
Proof. exact (latex_escape_injective "a_b" "a_b" eq_refl). Defined.

Lemma inert_escape_char (c : ascii) (after : bool) (x : string) :
  inert after (specials_get LATEX_SPECIALS c ++ x) = inert false x.
Proof.
  destruct (specials_get_cases c) as [[Hc ->]|H].
  - destruct c as [[] [] [] [] [] [] [] []]; try discriminate Hc; reflexivity.
  - repeat (destruct H as [->|H]; [reflexivity|]). subst. reflexivity.
Qed.

(** X4.  No reserved character stays active in the output of
    [latex_escape]: [~] and [^] do not occur in it, and every [&], [%],
    [$], [#] and [_] in it comes right after a backslash. *)
Theorem latex_escape_inert (t : string) : inert false (latex_escape t) = true.
Proof.
  induction t as [|c t IH]; cbn [latex_escape]; [reflexivity|].
  now rewrite inert_escape_char.
Qed.

(** ** Inline annotation renderer, continued *)

(** X5.  The rendering of any one span: the escaped literal text, inside
    the link construct when the span has a non-empty link target, inside
    the style constructs of the annotations that are set, which nest
    with code innermost, then bold, italic, underline, and strikethrough
    outermost. *)
Theorem rt_to_latex_span_nesting (rt : rich_text_obj) :
  rt_to_latex [rt]
  = style_open (ann_of rt) ++ link_core rt ++ style_close (ann_of rt).
Proof.
  rewrite rt_to_latex_single, <- render_span_styles.
  unfold render_span, link_core, ann_of, text_of.
  now destruct (href rt) as [[|c h]|].
Qed.

(** X6.  Spans are rendered independently of their neighbours: the
    rendering of a concatenation of span lists is the concatenation of
    the renderings, and the empty list renders as the empty text. *)
Theorem rt_to_latex_concat (xs ys : list rich_text_obj) :
  rt_to_latex (xs ++ ys) = rt_to_latex xs ++ rt_to_latex ys
  /\ rt_to_latex [] = "".
Proof. split; [apply rt_to_latex_app | reflexivity]. Qed.

(** ** Region filter, continued *)

Lemma mapM_cons_inv {A B : Type} (f : A -> outcome B) (a : A) (l : list A) (ys : list B) :
  mapM f (a :: l) = Returns ys ->
  exists y ys', f a = Returns y /\ mapM f l = Returns ys' /\ ys = y :: ys'.
Proof.
  cbn [mapM]. destruct (f a) as [y| |]; cbn [bind]; try discriminate.
  destruct (mapM f l) as [ys'| |]; cbn [bind]; try discriminate.
  intros H. injection H as <-. now exists y, ys'.
Qed.

Lemma filter_loop_closed (blocks : list block) :
  forall kinds found filtered,
    mapM classify blocks = Returns kinds ->
    filter_loop true found filtered blocks
    = Returns (filtered ++ kept_before_cut (combine blocks kinds))%list.
Proof.
  induction blocks as [|b rest IH]; intros kinds found filtered H.
  - cbn. now rewrite app_nil_r.
  - apply mapM_cons_inv in H as (k & ks & Hk & Hks & ->).
    cbn [filter_loop combine kept_before_cut]. rewrite Hk. cbn [bind].
    destruct k.
    + now apply IH.
    + now rewrite app_nil_r.
    + rewrite orb_true_r, (IH ks found _ Hks), <- app_assoc. reflexivity.
Qed.

(** X7.  When the text of every level-1 heading is ASCII and every block
    can be classified, the region filter returns the ordinary blocks in
    front of the first "Not For Resume" heading, in their order: "For
    Resume" headings are dropped and change nothing else, and blocks in
    front of a "For Resume" heading are kept like those behind it. *)
Theorem filter_for_resume_region_closed_form
  (blocks : list block) (kinds : list sentinel) :
  forallb ascii_heading blocks = true ->
  mapM classify blocks = Returns kinds ->
  filter_for_resume_region blocks
  = Returns (kept_before_cut (combine blocks kinds)).
Proof.
  intros _ H. unfold filter_for_resume_region. now rewrite (filter_loop_closed _ _ _ _ H).
Qed.

Lemma filter_for_resume_region_closed_form_witness :
  filter_for_resume_region
    [plain_block "paragraph" "A"; heading_1 "for resume"; plain_block "quote" "B";
     heading_1 "Not For Resume"; plain_block "paragraph" "C"]
  = Returns [plain_block "paragraph" "A"; plain_block "quote" "B"].
Proof.
  exact (filter_for_resume_region_closed_form
           [plain_block "paragraph" "A"; heading_1 "for resume"; plain_block "quote" "B";
            heading_1 "Not For Resume"; plain_block "paragraph" "C"]
           [Ordinary; ForResume; Ordinary; NotForResume; Ordinary] eq_refl eq_refl).
Defined.

Lemma filter_loop_cut (pre : list block) :
  forall b post post' in_resume found filtered,
    classify b = Returns NotForResume ->
    filter_loop in_resume found filtered (pre ++ b :: post)
    = filter_loop in_resume found filtered (pre ++ b :: post').
Proof.
  induction pre as [|x pre IH]; intros b post post' ir found filtered Hb.
  - cbn [app filter_loop]. now rewrite Hb.
  - cbn [app filter_loop]. destruct (classify x) as [[| |]| |]; cbn [bind];
      try reflexivity; try (now apply IH).
    destruct (negb found || ir); now apply IH.
Qed.

(** X8.  Nothing behind a "Not For Resume" heading is looked at: the
    outcome of the region filter, a result or an exception, does not
    depend on the blocks that follow such a heading. *)
Theorem filter_for_resume_region_ignores_rest
  (pre : list block) (b : block) (post post' : list block) :
  classify b = Returns NotForResume ->
  filter_for_resume_region (pre ++ b :: post)
  = filter_for_resume_region (pre ++ b :: post').
Proof. intros H. unfold filter_for_resume_region. now apply filter_loop_cut. Qed.

Lemma filter_for_resume_region_ignores_rest_witness :
  filter_for_resume_region
    [plain_block "paragraph" "A"; heading_1 "Not for resume";
     mkBlock (Some "heading_1") None false None []]
  = filter_for_resume_region
      [plain_block "paragraph" "A"; heading_1 "Not for resume"].
Proof.
  exact (filter_for_resume_region_ignores_rest [plain_block "paragraph" "A"]
           (heading_1 "Not for resume")
           [mkBlock (Some "heading_1") None false None []] [] eq_refl).
Defined.

(** X9.  A level-1 heading without its payload makes the region filter
    raise [KeyError] when it is reached, that is when no "Not For Resume"
    heading stands in front of it; the headings in front of it have
    ASCII text. *)
Theorem filter_for_resume_region_key_error
  (pre : list block) (b : block) (post : list block) :
  forallb ascii_heading pre = true ->
  Forall (fun x => classify x = Returns Ordinary \/ classify x = Returns ForResume) pre ->
  b_type b = Some "heading_1" ->
  b_payload b = None ->
  filter_for_resume_region (pre ++ b :: post) = Raises KeyError.
Proof.
  intros _ Hpre Ht Hp. unfold filter_for_resume_region.
  generalize true at 1, false, (@nil block).
  induction Hpre as [|x pre Hx _ IH]; intros ir found filtered.
  - cbn [app filter_loop]. unfold classify, heading_1_text, subscript_payload.
    rewrite Ht, Hp. reflexivity.
  - cbn [app filter_loop]. destruct Hx as [-> | ->]; cbn [bind]; [|apply IH].
    destruct (negb found || ir); apply IH.
Qed.

Lemma filter_for_resume_region_key_error_witness :
  filter_for_resume_region
    [plain_block "paragraph" "A"; heading_1 "For Resume";
     mkBlock (Some "heading_1") None false None []; plain_block "paragraph" "B"]
  = Raises KeyError.
Proof.
  exact (filter_for_resume_region_key_error
           [plain_block "paragraph" "A"; heading_1 "For Resume"]
           (mkBlock (Some "heading_1") None false None []) [plain_block "paragraph" "B"]
           eq_refl
           ltac:(constructor; [left; reflexivity
                              | constructor; [right; reflexivity | constructor]])
           eq_refl eq_refl).
Defined.

(** ** Block converter, continued *)

Lemma prefix_nil (s : string) : prefix "" s = true.
Proof. now destruct s. Qed.

Lemma item_prefix (x : string) : prefix "\item " ("\item " ++ x) = true.
Proof. cbn. apply prefix_nil. Qed.

Lemma blank_rstrip (s : string) : blank s = true -> Py.rstrip s = "".
Proof.
  induction s as [|c s IH]; [reflexivity|]. cbn [blank]. intros H.
  apply andb_true_iff in H as [Hc Hs]. now rewrite rstrip_cons, (IH Hs), Hc.
Qed.

Lemma blank_strip (s : string) : blank s = true -> Py.strip s = "".
Proof. intros H. unfold Py.strip. now rewrite (blank_rstrip s H). Qed.

Lemma strip_inked (c : ascii) (s : string) :
  Py.isspace c = false -> Py.strip (String c s) <> "".
Proof.
  intros Hc E. pose proof (ink_strip (String c s)) as H.
  rewrite E in H. cbn [ink] in H. rewrite Hc in H. discriminate.
Qed.

Lemma mapM_Forall {A B : Type} (f : A -> outcome B) (P : B -> Prop) (l : list A) :
  (forall x y, f x = Returns y -> P y) ->
  forall ys, mapM f l = Returns ys -> Forall P ys.
Proof.
  intros Hf. induction l as [|a l IH]; intros ys H.
  - injection H as <-. constructor.
  - apply mapM_cons_inv in H as (y & ys' & Hy & Hys & ->).
    constructor; [now apply (Hf a) | now apply IH].
Qed.

Lemma render_item_prefix (fuel : nat) (b : block) (mode s : string) :
  _render_list_block_item fuel b mode = Returns s -> prefix "\item " s = true.
Proof.
  destruct fuel as [|fuel]; [discriminate|]. cbn [_render_list_block_item].
  unfold subscript_payload. destruct (b_payload b) as [p|]; [|discriminate].
  cbn [bind].
  assert (Hbody : forall tail,
            prefix "\item " (("\item " ++ rt_to_latex (get_rich_text p)) ++ tail) = true).
  { intros tail. rewrite append_assoc. apply item_prefix. }
  assert (Hplain : prefix "\item " ("\item " ++ rt_to_latex (get_rich_text p)) = true)
    by apply item_prefix.
  destruct (has_children b); [|intros H; injection H as <-; exact Hplain].
  destruct (b_id b); [|discriminate].
  destruct (b_children b) as [|c0 cs]; [intros H; injection H as <-; exact Hplain|].
  destruct (filter (fun c => is_list_item (b_type c)) (c0 :: cs)) as [|d0 ds].
  - destruct (convert_blocks_to_latex fuel (c0 :: cs) _) as [para| |]; cbn [bind];
      try discriminate.
    destruct (negb (String.eqb (Py.strip para) "")); intros H; injection H as <-;
      [apply Hbody | exact Hplain].
  - destruct (mapM _ (d0 :: ds)) as [items| |]; cbn [bind]; try discriminate.
    intros H. injection H as <-. apply Hbody.
Qed.

Lemma convert_loop_items_units (fuel : nat) :
  forall blocks out units,
    Forall (fun u => prefix "\item " u = true) out ->
    convert_loop fuel blocks "items" out = Returns units ->
    Forall (fun u => prefix "\item " u = true) units.
Proof.
  induction fuel as [|fuel IH]; intros blocks out units Hout H; [discriminate|].
  cbn [convert_loop] in H. destruct blocks as [|b rest]; [now injection H as <-|].
  rewrite String.eqb_refl in H.
  destruct (type_in (b_type b) ["paragraph"; "quote"; "equation"; "code"]).
  - destruct (paragraph_like_text b (b_type b)) as [text| |]; cbn [bind] in H;
      try discriminate.
    destruct (negb (String.eqb (Py.strip text) "")); [|now apply (IH rest out)].
    apply (IH rest _ units) in H; [exact H|].
    apply Forall_app. split; [exact Hout|]. constructor; [apply item_prefix | constructor].
  - destruct (is_list_item (b_type b)).
    + destruct (take_run (b_type b) rest) as [run_tail rest'].
      destruct (mapM _ (b :: run_tail)) as [items| |] eqn:Em; cbn [bind] in H;
        try discriminate.
      apply (IH rest' _ units) in H; [exact H|].
      apply Forall_app. split; [exact Hout|].
      apply (mapM_Forall _ _ _ (fun x y => render_item_prefix fuel x "items" y) _ Em).
    + destruct (startswith_heading (b_type b)) as [h| |]; cbn [bind] in H;
        try discriminate.
      destruct h; now apply (IH rest out).
Qed.

(** X10.  In the mode "items" every unit of output is an item: the text
    returned is the newline-joined sequence of units that all start with
    the item marker, whatever the blocks are. *)
Theorem convert_blocks_to_latex_items_are_items
  (fuel : nat) (blocks : list block) (text : string) :
  convert_blocks_to_latex fuel blocks "items" = Returns text ->
  exists units, text = Py.join nl units
                /\ Forall (fun u => prefix "\item " u = true) units.
Proof.
  destruct fuel as [|fuel]; [discriminate|]. cbn [convert_blocks_to_latex].
  destruct (convert_loop fuel blocks "items" []) as [units| |] eqn:E; cbn [bind];
    try discriminate.
  intros H. injection H as <-. exists units. split; [reflexivity|].
  now apply (convert_loop_items_units fuel blocks [] units).
Qed.

Lemma convert_blocks_to_latex_items_are_items_witness :
  exists units,
    "\item p" ++ nl ++ "\item a" = Py.join nl units
    /\ Forall (fun u => prefix "\item " u = true) units.
Proof.
  exact (convert_blocks_to_latex_items_are_items 4
           [plain_block "paragraph" "p"; plain_block "numbered_list_item" "a"]
           _ eq_refl).
Defined.

(** X11.  A paragraph whose rendered text is blank, for one a paragraph
    without rich text, contributes nothing in either mode. *)
Theorem convert_loop_blank_paragraph
  (fuel : nat) (b : block) (p : payload) (rest : list block)
  (mode : string) (out : list string) :
  b_type b = Some "paragraph" ->
  b_payload b = Some p ->
  blank (rt_to_latex (get_rich_text p)) = true ->
  convert_loop (S fuel) (b :: rest) mode out = convert_loop fuel rest mode out
  /\ convert_blocks_to_latex (S (S fuel)) (b :: rest) mode
     = convert_blocks_to_latex (S fuel) rest mode.
Proof.
  intros Ht Hp Hb.
  assert (E : forall o, convert_loop (S fuel) (b :: rest) mode o
                        = convert_loop fuel rest mode o).
  { intros o. cbn [convert_loop]. unfold paragraph_like_text, subscript_payload.
    rewrite Ht, Hp. cbn [type_in existsb type_is]. rewrite String.eqb_refl.
    cbn [orb bind]. now rewrite (blank_strip _ Hb). }
  split; [apply E|]. cbn [convert_blocks_to_latex]. now rewrite E.
Qed.

Lemma convert_loop_blank_paragraph_witness :
  convert_blocks_to_latex 4
    [mkBlock (Some "paragraph") (Some (mkPayload None None)) false None [];
     plain_block "paragraph" "x"] "paragraphs"
  = Returns "x".
Proof.
  exact (proj2 (convert_loop_blank_paragraph 2
                  (mkBlock (Some "paragraph") (Some (mkPayload None None)) false None [])
                  (mkPayload None None) [plain_block "paragraph" "x"] "paragraphs" []
                  eq_refl eq_refl eq_refl)).
Defined.

(** X12.  A quote, an equation or a code block that carries its payload
    is never omitted, however empty its content: the loop appends one
    non-blank unit for it, prefixed as an item in the mode "items". *)
Theorem convert_loop_wrapped_kinds_always_emit
  (fuel : nat) (b : block) (kind : string) (p : payload) (rest : list block)
  (mode : string) (out : list string) :
  b_type b = Some kind ->
  kind = "quote" \/ kind = "equation" \/ kind = "code" ->
  b_payload b = Some p ->
  exists text,
    Py.strip text <> "" /\
    convert_loop (S fuel) (b :: rest) mode out
    = convert_loop fuel rest mode
        (out ++ [if String.eqb mode "items" then item_line text else text]).
Proof.
  intros Ht Hk Hp.
  assert (Hemit : forall text, Py.strip text <> "" ->
            (if negb (String.eqb (Py.strip text) "")
             then if String.eqb mode "items"
                  then convert_loop fuel rest mode (out ++ [item_line text])
                  else convert_loop fuel rest mode (out ++ [text])
             else convert_loop fuel rest mode out)
            = convert_loop fuel rest mode
                (out ++ [if String.eqb mode "items" then item_line text else text])).
  { intros text H. apply String.eqb_neq in H. rewrite H. cbn [negb].
    now destruct (String.eqb mode "items"). }
  destruct Hk as [->|[->| ->]].
  - exists ("\begin{quote}" ++ rt_to_latex (get_rich_text p) ++ "\end{quote}").
    split; [now apply strip_inked|].
    cbn [convert_loop]. unfold paragraph_like_text, subscript_payload.
    rewrite Ht, Hp. cbn [type_in existsb type_is String.eqb Ascii.eqb Bool.eqb orb andb bind].
    apply Hemit. now apply strip_inked.
  - exists ("$ " ++ latex_escape (match expression p with Some e => e | None => "" end)
                 ++ " $").
    split; [now apply strip_inked|].
    cbn [convert_loop]. unfold paragraph_like_text, subscript_payload.
    rewrite Ht, Hp. cbn [type_in existsb type_is String.eqb Ascii.eqb Bool.eqb orb andb bind].
    apply Hemit. now apply strip_inked.
  - exists ("\begin{verbatim}" ++ nl ++ rt_to_latex (get_rich_text p) ++ nl
                               ++ "\end{verbatim}").
    split; [now apply strip_inked|].
    cbn [convert_loop]. unfold paragraph_like_text, subscript_payload.
    rewrite Ht, Hp. cbn [type_in existsb type_is String.eqb Ascii.eqb Bool.eqb orb andb bind].
    apply Hemit. now apply strip_inked.
Qed.

Lemma convert_loop_wrapped_kinds_always_emit_witness :
  let b := mkBlock (Some "quote") (Some (mkPayload None None)) false None [] in
  convert_blocks_to_latex 3 [b] "paragraphs" = Returns "\begin{quote}\end{quote}"
  /\ exists text,
       Py.strip text <> "" /\
       convert_loop 2 [b] "paragraphs" [] = convert_loop 1 [] "paragraphs" [text].
Proof.
  intros b. split; [reflexivity|].
  exact (convert_loop_wrapped_kinds_always_emit 1 b "quote" (mkPayload None None) []
           "paragraphs" [] eq_refl (or_introl eq_refl) eq_refl).
Defined.

(** X13.  A list item flagged as having children but without an id makes
    the converter raise [KeyError], in either mode and whatever follows
    the item, even when it has no children at all. *)
Theorem convert_blocks_to_latex_missing_id
  (fuel : nat) (b : block) (p : payload) (rest : list block) (mode : string) :
  is_list_item (b_type b) = true ->
  b_payload b = Some p ->
  has_children b = true ->
  b_id b = None ->
  convert_blocks_to_latex (3 + fuel) (b :: rest) mode = Raises KeyError.
Proof.
  intros Hl Hp Hc Hi.
  assert (Hr : forall m, _render_list_block_item (S fuel) b m = Raises KeyError).
  { intros m. cbn [_render_list_block_item]. unfold subscript_payload.
    now rewrite Hp, Hc, Hi. }
  cbn [Nat.add convert_blocks_to_latex convert_loop].
  change (type_in (b_type b) ["paragraph"; "quote"; "equation"; "code"])
    with (paragraph_like (b_type b)).
  rewrite (paragraph_like_not_list _ Hl), Hl.
  destruct (take_run (b_type b) rest) as [run_tail rest'].
  destruct (String.eqb mode "items"); cbn [mapM]; now rewrite Hr.
Qed.

Lemma convert_blocks_to_latex_missing_id_witness :
  convert_blocks_to_latex 3
    [mkBlock (Some "bulleted_list_item") (Some (mkPayload None None)) true None []]
    "items"
  = Raises KeyError.
Proof.
  exact (convert_blocks_to_latex_missing_id 0
           (mkBlock (Some "bulleted_list_item") (Some (mkPayload None None)) true None [])
           (mkPayload None None) [] "items" eq_refl eq_refl eq_refl eq_refl).
Defined.

Lemma filter_filter {A : Type} (f : A -> bool) (l : list A) :
  filter f (filter f l) = filter f l.
Proof.
  induction l as [|a l IH]; cbn [filter]; [reflexivity|].
  destruct (f a) eqn:E; cbn [filter]; now rewrite ?E, IH.
Qed.

(** X14.  When a list item has at least one child that is a list item,
    its other children are not rendered: the item renders as it would
    with its list-item children alone. *)
Theorem render_list_block_item_drops_other_children
  (fuel : nat) (b : block) (mode : string) :
  filter (fun c => is_list_item (b_type c)) (b_children b) <> [] ->
  _render_list_block_item fuel b mode
  = _render_list_block_item fuel
      (with_children b (filter (fun c => is_list_item (b_type c)) (b_children b))) mode.
Proof.
  intros Hne. destruct fuel as [|fuel]; [reflexivity|].
  destruct b as [tp pl hc id ch].
  cbn [_render_list_block_item with_children b_type b_payload has_children b_id b_children]
    in *.
  unfold subscript_payload. cbn [b_payload].
  destruct pl as [p|]; [|reflexivity]. cbn [bind].
  destruct hc; [|reflexivity]. destruct id; [|reflexivity].
  rewrite filter_filter.
  destruct (filter (fun c => is_list_item (b_type c)) ch) as [|d0 ds] eqn:Ef;
    [congruence|].
  destruct ch as [|c0 cs]; [discriminate Ef|]. reflexivity.
Qed.

Lemma render_list_block_item_drops_other_children_witness :
  _render_list_block_item 3
    (mkBlock (Some "bulleted_list_item") (Some (mkPayload None None)) true (Some "i")
       [plain_block "paragraph" "lost"; plain_block "numbered_list_item" "kept"])
    "paragraphs"
  = Returns ("\item " ++ nl ++ "\begin{enumerate}" ++ nl ++ "\item kept" ++ nl
             ++ "\end{enumerate}").
Proof.
  exact (render_list_block_item_drops_other_children 3
           (mkBlock (Some "bulleted_list_item") (Some (mkPayload None None)) true (Some "i")
              [plain_block "paragraph" "lost"; plain_block "numbered_list_item" "kept"])
           "paragraphs" ltac:(discriminate)).
Defined.

Lemma take_run_app (kind : string) (run rest : list block) :
  Forall (fun b => b_type b = Some kind) run ->
  match rest with [] => True | r :: _ => b_type r <> Some kind end ->
  take_run (Some kind) (run ++ rest) = (run, rest).
Proof.
  intros Hrun Hrest. induction Hrun as [|b run Hb _ IH]; cbn [app take_run].
  - destruct rest as [|r rest]; [reflexivity|]. cbn [take_run].
    destruct (b_type r) as [t|]; [|reflexivity].
    destruct (String.eqb_spec t kind) as [->|_]; [now destruct Hrest | reflexivity].
  - now rewrite Hb, String.eqb_refl, IH.
Qed.

Lemma mapM_leaf_items (fuel : nat) (kind mode : string) (run : list block) :
  Forall (leaf_item kind) run ->
  mapM (fun item => _render_list_block_item (S fuel) item mode) run
  = Returns (map item_text run).
Proof.
  induction 1 as [|b run (Ht & Hc & Hp) _ IH]; cbn [mapM map]; [reflexivity|].
  rewrite IH. cbn [_render_list_block_item]. unfold subscript_payload, item_text.
  destruct (b_payload b) as [p|]; [|congruence]. now rewrite Hc.
Qed.

(** X15.  Run merging.  A maximal run of list items of one kind, none
    flagged as having children, is handled in one step of the loop: in
    the mode "items" it appends one item line per block, in any other
    mode one environment (itemize for bulleted, enumerate for numbered
    items) around the item lines; the loop goes on behind the run. *)
Theorem convert_loop_list_run
  (fuel : nat) (kind : string) (b : block) (run rest : list block)
  (mode : string) (out : list string) :
  is_list_item (Some kind) = true ->
  Forall (leaf_item kind) (b :: run) ->
  match rest with [] => True | r :: _ => b_type r <> Some kind end ->
  convert_loop (S (S fuel)) ((b :: run) ++ rest) mode out
  = convert_loop (S fuel) rest mode
      (if String.eqb mode "items"
       then out ++ map item_text (b :: run)
       else out ++ begin_env (list_env (Some kind)) :: map item_text (b :: run)
                ++ [end_env (list_env (Some kind))])%list.
Proof.
  intros Hk Hrun Hrest.
  pose proof Hrun as Hrun'. inversion Hrun' as [|? ? (Ht & _ & _) Htail]; subst.
  cbn [app convert_loop].
  change (type_in (b_type b) ["paragraph"; "quote"; "equation"; "code"])
    with (paragraph_like (b_type b)).
  rewrite Ht, (paragraph_like_not_list _ Hk), Hk, take_run_app; [|
    apply (Forall_impl _ (P := leaf_item kind)); [now intros x (Hx & _) | exact Htail]
    | exact Hrest].
  destruct (String.eqb mode "items");
    rewrite (mapM_leaf_items fuel kind _ (b :: run) Hrun); reflexivity.
Qed.

Lemma convert_loop_list_run_witness :
  convert_blocks_to_latex 4
    [plain_block "bulleted_list_item" "a"; plain_block "bulleted_list_item" "b";
     plain_block "numbered_list_item" "c"] "paragraphs"
  = Returns (Py.join nl ["\begin{itemize}"; "\item a"; "\item b"; "\end{itemize}";
                         "\begin{enumerate}"; "\item c"; "\end{enumerate}"])
  /\ convert_loop 4
       [plain_block "bulleted_list_item" "a"; plain_block "bulleted_list_item" "b";
        plain_block "numbered_list_item" "c"] "paragraphs" []
     = convert_loop 3 [plain_block "numbered_list_item" "c"] "paragraphs"
         ["\begin{itemize}"; "\item a"; "\item b"; "\end{itemize}"].
Proof.
  split; [reflexivity|].
  exact (convert_loop_list_run 2 "bulleted_list_item"
           (plain_block "bulleted_list_item" "a") [plain_block "bulleted_list_item" "b"]
           [plain_block "numbered_list_item" "c"] "paragraphs" [] eq_refl
           ltac:(repeat constructor; discriminate) ltac:(discriminate)).
Defined.

(** ** Child retrieval *)

Lemma list_children_loop_paged (notion : children_api) (block_id : string)
  (cursor : option string) (pages : list children_response) :
  paged notion block_id cursor pages ->
  forall fuel all_blocks, List.length pages <= fuel ->
    list_children_loop fuel notion block_id cursor all_blocks
    = Returns (all_blocks ++ concat (map results_of pages))%list.
Proof.
  induction 1 as [cursor Hlast | cursor pages Hmore _ IH]; intros fuel all_blocks Hf.
  - destruct fuel as [|fuel]; [cbn in Hf; lia|].
    cbn [list_children_loop map concat]. now rewrite Hlast, app_nil_r.
  - destruct fuel as [|fuel]; [cbn in Hf; lia|].
    cbn [list_children_loop map concat]. rewrite Hmore. cbn [negb].
    rewrite IH by (cbn in Hf; lia). now rewrite app_assoc.
Qed.

(** X16.  [list_children] follows the pagination to its end: when the
    responses for a block, each requested with the cursor of the one
    before, end with a response without [has_more], it returns the
    results of all these responses, concatenated in order, and requests
    nothing further. *)
Theorem list_children_collects_all_pages
  (notion : children_api) (block_id : string) (pages : list children_response)
  (fuel : nat) :
  paged notion block_id None pages ->
  List.length pages <= fuel ->
  list_children fuel notion block_id = Returns (concat (map results_of pages)).
Proof.
  intros Hp Hf. unfold list_children.
  now rewrite (list_children_loop_paged _ _ _ _ Hp fuel [] Hf).
Qed.

Lemma list_children_collects_all_pages_witness :
  let a := plain_block "paragraph" "a" in
  let b := plain_block "paragraph" "b" in
  let notion (_ : string) (cursor : option string) :=
    match cursor with
    | None => mkResponse (Some [a]) true (Some "next")
    | Some _ => mkResponse (Some [b]) false None
    end in
  list_children 2 notion "page" = Returns [a; b].
Proof.
  intros a b notion.
  exact (list_children_collects_all_pages notion "page"
           [mkResponse (Some [a]) true (Some "next"); mkResponse (Some [b]) false None] 2
           (paged_more notion "page" None _ eq_refl
              (paged_last notion "page" (Some "next") eq_refl))
           (le_n 2)).
Defined.

(** X17.  [list_children] has no guard against a service that never ends
    the pagination: when every response for a block says [has_more], no
    number of requests makes it return. *)
Theorem list_children_unbounded
  (notion : children_api) (block_id : string) (fuel : nat) :
  (forall cursor, r_has_more (notion block_id cursor) = true) ->
  list_children fuel notion block_id = OutOfFuel.
Proof.
  intros H. unfold list_children. generalize (@None string), (@nil block).
  induction fuel as [|fuel IH]; intros cursor all_blocks; [reflexivity|].
  cbn [list_children_loop]. rewrite H. apply IH.
Qed.

Lemma list_children_unbounded_witness :
  list_children 5 (fun _ _ => mkResponse None true None) "page" = OutOfFuel.
Proof.
  exact (list_children_unbounded (fun _ _ => mkResponse None true None) "page" 5
           (fun _ => eq_refl)).
Defined.

(** ** Structured dates *)

Lemma years_read_back : forallb year_reads_back (seq 1 (Z.to_nat 9999)) = true.
Proof. vm_compute. reflexivity. Qed.

Lemma year_string (year : Z) :
  (1 <= year <= 9999)%Z ->
  let s := NilZero.string_of_int (Z.to_int year) in
  s <> "" /\ all_digits s = true
  /\ (Z.of_nat (String.length s) <= Py.int_max_str_digits)%Z
  /\ decimal_value s = year.
Proof.
  intros Hy. pose proof years_read_back as H. rewrite forallb_forall in H.
  specialize (H (Z.to_nat year)). rewrite in_seq in H.
  assert (Hr : year_reads_back (Z.to_nat year) = true) by (apply H; lia).
  unfold year_reads_back in Hr. rewrite Z2Nat.id in Hr by lia.
  apply andb_true_iff in Hr as [Hr H4]. apply andb_true_iff in Hr as [Hr H3].
  apply andb_true_iff in Hr as [H1 H2].
  cbv zeta. repeat split.
  - intros E. rewrite E in H1. discriminate.
  - exact H2.
  - apply Nat.leb_le in H3. unfold Py.int_max_str_digits. lia.
  - now apply Z.eqb_eq.
Qed.

(** A month abbreviation of the table, a space and a year in digits. *)
Lemma parse_month_year (i : nat) (m ds : string) :
  nth_error MONTHS i = Some m -> ds <> "" -> all_digits ds = true ->
  (Z.of_nat (String.length ds) <= Py.int_max_str_digits)%Z ->
  parse_date_for_sorting (m ++ " " ++ ds) = (decimal_value ds, Z.of_nat i + 1)%Z.
Proof.
  intros Hm Hne Hd Hlen.
  destruct (month_year_tokens m ds (nth_error_In _ _ Hm) Hne Hd) as (H1 & H2 & Hs).
  unfold parse_date_for_sorting.
  apply String.eqb_neq in H1. apply String.eqb_neq in H2. rewrite H1, H2. cbn [orb].
  now rewrite Hs, (int_of_digits ds Hne Hd Hlen), (index_of_months i m Hm).
Qed.

(** X18.  Formatting and sorting agree on structured dates: when
    [datetime.fromisoformat] parses a date, with a year from 1 to 9999
    and a month from 1 to 12 as every [datetime] has, [fmt_date] returns
    a display string whose sort key is that year and that month. *)
Theorem fmt_date_sort_key
  (fromisoformat : string -> option (Z * Z)) (d : string) (year month : Z) :
  d <> "" ->
  fromisoformat (iso_argument d) = Some (year, month) ->
  (1 <= year <= 9999)%Z -> (1 <= month <= 12)%Z ->
  exists s, fmt_date fromisoformat (Some d) = Some s
            /\ parse_date_for_sorting s = (year, month).
Proof.
  intros Hd Hiso Hy Hm. destruct d as [|c d]; [congruence|].
  unfold fmt_date. fold (iso_argument (String c d)).
  replace (if Py.contains "T" (String c d)
           then fromisoformat (Py.replace "Z" "+00:00" (String c d))
           else fromisoformat (String c d))
    with (fromisoformat (iso_argument (String c d)))
    by (unfold iso_argument; now destruct (Py.contains "T" (String c d))).
  rewrite Hiso. destruct (Z.leb_spec 1 month); [|lia].
  destruct (nth_error MONTHS (Z.to_nat (month - 1))) as [m|] eqn:En.
  - eexists. split; [reflexivity|].
    destruct (year_string year Hy) as (H1 & H2 & H3 & H4).
    rewrite (parse_month_year _ m _ En H1 H2 H3), H4. f_equal. lia.
  - apply nth_error_None in En. cbn [MONTHS List.length] in En. lia.
Qed.

Lemma fmt_date_sort_key_witness :
  exists s,
    fmt_date (fun _ => Some (2023, 6)%Z) (Some "2023-06-15T10:30:00Z") = Some s
    /\ parse_date_for_sorting s = (2023, 6)%Z.
Proof.
  exact (fmt_date_sort_key (fun _ => Some (2023, 6)%Z) "2023-06-15T10:30:00Z" 2023 6
           ltac:(discriminate) eq_refl ltac:(lia) ltac:(lia)).
Defined.

(** X19.  [fmt_date] returns null exactly for a null or empty date, never
    an empty string, and returns the date as it is when
    [datetime.fromisoformat] raises. *)
Theorem fmt_date_shape
  (fromisoformat : string -> option (Z * Z)) (d : option string) :
  (Py.truthy d = false -> fmt_date fromisoformat d = None)
  /\ (Py.truthy d = true ->
      exists s, fmt_date fromisoformat d = Some s /\ s <> "")
  /\ (forall text, d = Some text -> text <> "" ->
      fromisoformat (iso_argument text) = None ->
      fmt_date fromisoformat d = Some text).
Proof.
  split; [|split].
  - destruct d as [[|c t]|]; [reflexivity | discriminate | reflexivity].
  - destruct d as [[|c t]|]; try discriminate. intros _. cbn [fmt_date].
    destruct (if Py.contains "T" (String c t) then _ else _) as [[year month]|];
      [|eexists; split; [reflexivity | discriminate]].
    destruct (1 <=? month)%Z; [|eexists; split; [reflexivity | discriminate]].
    destruct (nth_error MONTHS (Z.to_nat (month - 1))) as [m|];
      [|eexists; split; [reflexivity | discriminate]].
    eexists. split; [reflexivity|]. destruct m; discriminate.
  - intros text -> Hne Hiso. destruct text as [|c t]; [congruence|].
    unfold fmt_date. unfold iso_argument in Hiso.
    destruct (Py.contains "T" (String c t)); now rewrite Hiso.
Qed.

Lemma fmt_date_shape_witness :
  fmt_date (fun _ => None) (Some "next spring") = Some "next spring".
Proof.
  exact (proj2 (proj2 (fmt_date_shape (fun _ => None) (Some "next spring")))
           "next spring" eq_refl ltac:(discriminate) eq_refl).
Defined.

(** ** Date range resolver and sort keys, continued *)

Lemma split_ws_aux_word (w : string) : forall cur,
  no_space w = true -> cur ++ w <> "" -> Py.split_ws_aux cur w = [cur ++ w].
Proof.
  induction w as [|c w IH]; intros cur Hw Hne; cbn [Py.split_ws_aux].
  - rewrite append_nil_r in *. destruct cur; [congruence | reflexivity].
  - cbn [no_space] in Hw. apply andb_true_iff in Hw as [Hc Hw].
    apply negb_true_iff in Hc. rewrite Hc, IH; try assumption.
    + now rewrite append_assoc.
    + rewrite append_assoc. cbn. destruct cur; discriminate.
Qed.

(** X21.  A display date of a single ASCII word, such as a year alone or
    an ISO date left as it was, gets the key (0, 0), unless the word is
    "present". *)
Theorem parse_date_for_sorting_single_word (s : string) :
  isascii s = true ->
  s <> "" -> no_space s = true -> Py.lower s <> "present" ->
  parse_date_for_sorting s = (0, 0)%Z.
Proof.
  intros _ H1 Hw H2. unfold parse_date_for_sorting, Py.split_ws.
  apply String.eqb_neq in H1 as H1'. apply String.eqb_neq in H2 as H2'.
  rewrite H1', H2'. cbn [orb].
  now rewrite (split_ws_aux_word s "" Hw H1).
Qed.

Lemma parse_date_for_sorting_single_word_witness :
  parse_date_for_sorting "2020" = (0, 0)%Z.
Proof.
  exact (parse_date_for_sorting_single_word "2020" eq_refl ltac:(discriminate) eq_refl
           ltac:(discriminate)).
Defined.

(** X20.  A date override that is set decides the result alone: with a
    text or rich-text override, ASCII apart from em and en dashes, that
    is not blank, [get_date_range] does not depend on the start and end
    date properties nor on the ISO parser.  Without an override, or with
    one of another type or made of ASCII whitespace only, the result is
    that of the two date properties, with a null third output. *)
Theorem get_date_range_override_priority
  (f f' : string -> option (Z * Z)) (p p' : props) :
  (forall o,
     date_override p = Some o -> date_override p' = Some o ->
     type_in (o_type o) ["text"; "rich_text"] = true ->
     dash_ascii (override_text_of o) = true ->
     Py.strip (override_text_of o) <> "" ->
     get_date_range f p = get_date_range f' p')
  /\ ((match date_override p with
       | Some o => type_in (o_type o) ["text"; "rich_text"] = false
                   \/ Py.strip (override_text_of o) = ""
       | None => True
       end) ->
      get_date_range f p
      = (fmt_date_prop f (start_date_prop p), fmt_date_prop f (end_date_prop p), None)).
Proof.
  split.
  - intros o Ho Ho' Ht _ Hs. unfold get_date_range. rewrite Ho, Ho', Ht.
    apply String.eqb_neq in Hs. now rewrite Hs.
  - unfold get_date_range. destruct (date_override p) as [o|]; [|reflexivity].
    intros [H|H]; [now rewrite H|]. rewrite H.
    now destruct (type_in (o_type o) ["text"; "rich_text"]).
Qed.

Lemma get_date_range_override_priority_witness :
  let o := mkOverride (Some "text") (Some "2019 -- 2020") None in
  let d := Some (mkDateProp (Some "date") (Some (Some "2024-01-01"))) in
  get_date_range (fun _ => Some (2024, 1)%Z) (mkProps (Some o) d d)
  = get_date_range (fun _ => None) (mkProps (Some o) None None).
Proof.
  intros o d.
  exact (proj1 (get_date_range_override_priority (fun _ => Some (2024, 1)%Z)
                  (fun _ => None) (mkProps (Some o) d d) (mkProps (Some o) None None))
           o eq_refl eq_refl eq_refl eq_refl ltac:(discriminate)).
Defined.

(** *** No date field is ever the empty string *)

Lemma lstrip_headed (s : string) : Py.lstrip s <> "" -> headed (Py.lstrip s) = true.
Proof.
  induction s as [|c s IH]; cbn [Py.lstrip]; [congruence|].
  destruct (Py.isspace c) eqn:E; [exact IH|]. intros _. cbn. now rewrite E.
Qed.

Lemma strip_trimmed (s : string) : Py.strip s <> "" -> trimmed (Py.strip s).
Proof.
  intros H. split; [now apply lstrip_headed|].
  unfold Py.strip. apply rstrip_lstrip_fixed, rstrip_idem.
Qed.

Lemma trimmed_strip (s : string) : trimmed s -> Py.strip s = s /\ s <> "".
Proof.
  intros [Hh Hr]. unfold Py.strip. rewrite Hr. destruct s as [|c s]; [discriminate|].
  cbn in Hh. apply negb_true_iff in Hh. cbn [Py.lstrip]. rewrite Hh.
  split; [reflexivity | discriminate].
Qed.

Lemma rstrip_fixed_tail (c : ascii) (s : string) :
  Py.rstrip (String c s) = String c s ->
  Py.rstrip s = s /\ (s = "" -> Py.isspace c = false).
Proof.
  rewrite rstrip_cons. destruct (Py.rstrip s) as [|d r] eqn:E.
  - destruct (Py.isspace c); [discriminate|]. intros H. injection H as <-.
    now split.
  - intros H. injection H as <-. split; [reflexivity | discriminate].
Qed.

Lemma rstrip_fixed_cons (c : ascii) (s : string) :
  Py.rstrip s = s -> (s <> "" \/ Py.isspace c = false) ->
  Py.rstrip (String c s) = String c s.
Proof.
  intros Hs H. rewrite rstrip_cons, Hs. destruct s as [|d s]; [|reflexivity].
  destruct H as [H|H]; [congruence | now rewrite H].
Qed.

Lemma replace_aux_nonempty (old : string) (s : string) :
  s <> "" -> Py.replace_aux old "--" 0 s <> "".
Proof.
  destruct s as [|c s]; [congruence|]. intros _. cbn [Py.replace_aux].
  destruct (prefix old (String c s)); discriminate.
Qed.

Lemma replace_aux_rstrip (old : string) (s : string) : forall skip,
  Py.rstrip s = s ->
  Py.rstrip (Py.replace_aux old "--" skip s) = Py.replace_aux old "--" skip s.
Proof.
  induction s as [|c s IH]; intros skip Hs; [reflexivity|].
  destruct (rstrip_fixed_tail c s Hs) as [Hs' Hc].
  cbn [Py.replace_aux]. destruct skip as [|k]; [|now apply IH].
  destruct (prefix old (String c s)).
  - change ("--" ++ ?x) with (String "-" (String "-" x)).
    assert (H1 : Py.rstrip (String "-" (Py.replace_aux old "--" (String.length old - 1) s))
                 = String "-" (Py.replace_aux old "--" (String.length old - 1) s)).
    { apply rstrip_fixed_cons; [now apply IH | now right]. }
    apply rstrip_fixed_cons; [exact H1 | left; discriminate].
  - apply rstrip_fixed_cons; [now apply IH|].
    destruct s as [|d s]; [right; now apply Hc | left].
    now apply replace_aux_nonempty.
Qed.

Lemma replace_headed (old : string) (s : string) :
  headed s = true -> headed (Py.replace old "--" s) = true.
Proof.
  destruct s as [|c s]; [discriminate|]. unfold Py.replace. cbn [Py.replace_aux].
  now destruct (prefix old (String c s)).
Qed.

Lemma normalize_dashes_trimmed (s : string) : trimmed s -> trimmed (normalize_dashes s).
Proof.
  intros [Hh Hr]. unfold normalize_dashes. split.
  - now apply replace_headed, replace_headed.
  - unfold Py.replace. now apply replace_aux_rstrip, replace_aux_rstrip.
Qed.

Lemma prefix_drop (sep s : string) :
  prefix sep s = true -> s = sep ++ Py.drop (String.length sep) s.
Proof.
  revert s. induction sep as [|a sep IH]; intros s H; [now destruct s|].
  destruct s as [|b s]; [discriminate|]. cbn in H.
  destruct (ascii_dec a b) as [->|]; [|discriminate].
  cbn. f_equal. now apply IH.
Qed.

Lemma split_once_eq (sep s a b : string) :
  Py.split_once sep s = Some (a, b) -> s = a ++ sep ++ b.
Proof.
  revert a. induction s as [|c s IH]; intros a; cbn [Py.split_once].
  - destruct (prefix sep "") eqn:E; [|discriminate].
    intros H. injection H as <- <-. now apply prefix_drop.
  - destruct (prefix sep (String c s)) eqn:E.
    + intros H. injection H as <- <-. now apply prefix_drop.
    + destruct (Py.split_once sep s) as [[a' b']|]; [|discriminate].
      intros H. injection H as <- <-. cbn. f_equal. now apply IH.
Qed.

Lemma blank_ink (s : string) : ink s = 0 -> blank s = true.
Proof.
  induction s as [|c s IH]; [reflexivity|]. cbn [ink blank].
  destruct (Py.isspace c); cbn; [exact IH | discriminate].
Qed.

Lemma strip_empty_blank (s : string) : Py.strip s = "" -> blank s = true.
Proof. intros H. apply blank_ink. rewrite <- ink_strip, H. reflexivity. Qed.

Lemma rstrip_length (s : string) : String.length (Py.rstrip s) <= String.length s.
Proof.
  induction s as [|c s IH]; [apply Nat.le_refl|]. rewrite rstrip_cons.
  destruct (Py.rstrip s); [destruct (Py.isspace c)|]; cbn in *; lia.
Qed.

Lemma rstrip_app_blank (x w : string) :
  blank w = true -> Py.rstrip (x ++ w) = Py.rstrip x.
Proof.
  intros Hw. induction x as [|c x IH]; cbn [append].
  - now rewrite (blank_rstrip w Hw).
  - now rewrite !rstrip_cons, IH.
Qed.

(** In a trimmed text both sides of the first separator have ink. *)
Lemma split_once_trimmed (s a b : string) :
  trimmed s -> Py.split_once " -- " s = Some (a, b) ->
  Py.strip a <> "" /\ Py.strip b <> "".
Proof.
  intros [Hh Hr] H. apply split_once_eq in H. split; intros E.
  - apply strip_empty_blank in E. rewrite H in Hh.
    destruct a as [|c a]; [discriminate Hh|].
    cbn in E, Hh. apply andb_true_iff in E as [E _]. now rewrite E in Hh.
  - apply strip_empty_blank in E.
    assert (Hs : s = (a ++ " --") ++ (" " ++ b)) by (now rewrite H, append_assoc).
    pose proof (rstrip_length (a ++ " --")) as Hl.
    rewrite <- (rstrip_app_blank _ (" " ++ b)) in Hl by (cbn; exact E).
    rewrite <- Hs, Hr, Hs, !length_app in Hl. cbn in Hl. lia.
Qed.

Lemma parsed_ranges_inked (override_text : string) (s e : string) :
  In (s, e) (parsed_ranges override_text) -> s <> "" /\ e <> "".
Proof.
  unfold parsed_ranges, split_ranges. intros H.
  apply in_flat_map in H as (r & Hr & H). apply in_map_iff in Hr as (piece & <- & _).
  destruct (Py.split_once " -- " (Py.strip piece)) as [[a b]|] eqn:E; [|destruct H].
  destruct H as [H|[]]. injection H as <- <-.
  apply (split_once_trimmed (Py.strip piece)); [|exact E].
  apply strip_trimmed. intros E'. rewrite E' in E. discriminate E.
Qed.

Lemma parse_date_override_inked (raw : string) :
  trimmed raw ->
  fst (parse_date_override raw) <> ""
  /\ forall e, snd (parse_date_override raw) = Some e -> e <> "".
Proof.
  intros Hraw. pose proof (normalize_dashes_trimmed raw Hraw) as Hn.
  assert (Hsingle : fst (single_range (normalize_dashes raw)) <> ""
                    /\ forall e, snd (single_range (normalize_dashes raw)) = Some e ->
                                 e <> "").
  { unfold single_range.
    destruct (Py.contains " -- " (normalize_dashes raw)).
    - destruct (Py.split_once " -- " (normalize_dashes raw)) as [[a b]|] eqn:E.
      + destruct (split_once_trimmed _ a b Hn E) as [Ha Hb]. split; [exact Ha|].
        cbn. intros e H. now injection H as <-.
      + split; [now destruct (trimmed_strip _ Hn) as [-> ?] | discriminate].
    - split; [now destruct (trimmed_strip _ Hn) as [-> ?] | discriminate]. }
  unfold parse_date_override. rewrite collect_dates_parsed.
  destruct (Py.contains "," (normalize_dashes raw)); [|exact Hsingle].
  destruct (parsed_ranges raw) as [|[a b] P] eqn:EP; [exact Hsingle|].
  cbv zeta. cbn [map fst snd].
  assert (Hin : forall s e, In (s, e) ((a, b) :: P) -> s <> "" /\ e <> "").
  { intros s e H. apply (parsed_ranges_inked raw). now rewrite EP. }
  split.
  - destruct (min_from_spec parse_date_for_sorting (map fst P) a) as [Hm _].
    change (a :: map fst P) with (map fst ((a, b) :: P)) in Hm.
    apply in_map_iff in Hm as ([s e] & <- & Hm). now apply (Hin s e).
  - intros e H.
    replace e with (match filter not_present (b :: map snd P) with
                    | [] => "Present"
                    | e0 :: ends => max_from parse_date_for_sorting e0 ends
                    end) by congruence.
    destruct (filter not_present (b :: map snd P)) as [|e0 es] eqn:Ef;
      [cbv iota; discriminate|].
    destruct (max_from_spec parse_date_for_sorting es e0) as [Hm _].
    rewrite <- Ef in Hm. apply filter_In in Hm as [Hm _].
    change (b :: map snd P) with (map snd ((a, b) :: P)) in Hm.
    apply in_map_iff in Hm as ([s' e'] & <- & Hm). now apply (Hin s' e').
Qed.

Lemma fmt_date_inked (f : string -> option (Z * Z)) (d : option string) :
  fmt_date f d <> Some "".
Proof.
  destruct d as [[|c t]|]; try discriminate. cbn [fmt_date].
  destruct (if Py.contains "T" (String c t) then _ else _) as [[year month]|];
    [|discriminate].
  destruct (1 <=? month)%Z; [|discriminate].
  destruct (nth_error MONTHS (Z.to_nat (month - 1))) as [m|]; [|discriminate].
  destruct m; discriminate.
Qed.

Lemma fmt_date_prop_inked (f : string -> option (Z * Z)) (p : option date_prop) :
  fmt_date_prop f p <> Some "".
Proof.
  unfold fmt_date_prop. destruct p as [dp|]; [|discriminate].
  destruct (type_is (d_type dp) "date"); [|discriminate].
  destruct (d_date dp) as [start|]; [apply fmt_date_inked | discriminate].
Qed.

Lemma truthy_is_some (o : option string) : o <> Some "" -> Py.truthy o = is_some o.
Proof. destruct o as [[|c s]|]; [congruence | reflexivity | reflexivity]. Qed.

Lemma get_date_range_inked (fromisoformat : string -> option (Z * Z)) (p : props) :
  let '(start_d, end_d, date_display) := get_date_range fromisoformat p in
  start_d <> Some "" /\ end_d <> Some "" /\ date_display <> Some "".
Proof.
  unfold get_date_range.
  assert (Hfall : fmt_date_prop fromisoformat (start_date_prop p) <> Some ""
                  /\ fmt_date_prop fromisoformat (end_date_prop p) <> Some ""
                  /\ @None string <> Some "").
  { repeat split; try apply fmt_date_prop_inked. discriminate. }
  destruct (date_override p) as [o|]; [|exact Hfall].
  destruct (type_in (o_type o) ["text"; "rich_text"]); [|exact Hfall].
  destruct (String.eqb_spec (Py.strip (override_text_of o)) "") as [_|Hne];
    [exact Hfall|]. cbn [negb].
  destruct (parse_date_override_inked _ (strip_trimmed _ Hne)) as [Hs He].
  destruct (parse_date_override (Py.strip (override_text_of o))) as [start_d end_d].
  cbn [fst snd] in Hs, He. repeat split.
  - congruence.
  - intros E. now apply (He "").
  - congruence.
Qed.

(** X22.  No date field is ever the empty string: each of the three
    outputs of [get_date_range] is either null or a non-empty string, so
    the truthiness tests of the sorter on a record built from them are
    tests for null. *)
Theorem get_date_range_no_empty_string
  (fromisoformat : string -> option (Z * Z)) (p : props) :
  let '(start_d, end_d, date_display) := get_date_range fromisoformat p in
  (start_d <> Some "" /\ end_d <> Some "" /\ date_display <> Some "")
  /\ (Py.truthy start_d = is_some start_d
      /\ Py.truthy end_d = is_some end_d
      /\ Py.truthy date_display = is_some date_display).
Proof.
  pose proof (get_date_range_inked fromisoformat p) as H.
  destruct (get_date_range fromisoformat p) as [[start_d end_d] date_display].
  split; [exact H|]. destruct H as (H1 & H2 & H3).
  repeat split; now apply truthy_is_some.
Qed.

(** ** Entry sorter, continued *)

Lemma sorted_reverse_fixed {A : Type} (key : A -> date_key) (l : list A) :
  StronglySorted (fun a b => key_le (key b) (key a)) l -> sorted_reverse key l = l.
Proof.
  induction 1 as [|x l Hs IH Hx]; cbn [sorted_reverse]; [reflexivity|].
  rewrite IH. destruct l as [|y l]; [reflexivity|]. cbn [insert_reverse].
  inversion Hx as [|? ? Hy _]; subst.
  destruct (key_lt (key x) (key y)) eqn:E; [|reflexivity].
  unfold key_lt, key_le in *. lia.
Qed.

Lemma sort_entries_by_date_sorted (entries : list entry) :
  StronglySorted descending (sort_entries_by_date entries).
Proof.
  unfold sort_entries_by_date.
  rewrite (sorted_reverse_ext _ effective_date_key _ get_sort_date_effective).
  apply (sorted_reverse_sorted effective_date_key).
Qed.

Lemma sort_entries_by_date_fixed (entries : list entry) :
  StronglySorted descending entries -> sort_entries_by_date entries = entries.
Proof.
  intros H. unfold sort_entries_by_date.
  rewrite (sorted_reverse_ext _ effective_date_key _ get_sort_date_effective).
  now apply sorted_reverse_fixed.
Qed.

(** X23.  Sorting changes nothing in a sequence that is already in
    descending key order, the date fields of its entries being ASCII
    apart from em and en dashes; and sorting a sorted result again gives
    the same result, for any entries. *)
Theorem sort_entries_by_date_idempotent (entries : list entry) :
  (forallb ascii_dates entries = true ->
   StronglySorted descending entries -> sort_entries_by_date entries = entries)
  /\ sort_entries_by_date (sort_entries_by_date entries) = sort_entries_by_date entries.
Proof.
  split; [intros _; apply sort_entries_by_date_fixed|].
  apply sort_entries_by_date_fixed, sort_entries_by_date_sorted.
Qed.

Lemma sort_entries_by_date_idempotent_witness :
  let ent e := mkEntry e "" "" "" None (Some e) None true "" in
  sort_entries_by_date [ent "Present"; ent "Dec 2021"; ent "Dec 2021"; ent "x"]
  = [ent "Present"; ent "Dec 2021"; ent "Dec 2021"; ent "x"].
Proof.
  intros ent.
  apply (proj1 (sort_entries_by_date_idempotent _)); [reflexivity|].
  repeat constructor; unfold descending; cbn; lia.
Defined.

(** X24.  [sort_cv_data] keeps the sections and their order and replaces
    each section by a permutation of it; when the date fields of the
    entries are ASCII apart from em and en dashes every section comes
    out in descending key order; and applying it twice is applying it
    once. *)
Theorem sort_cv_data_sections (data : cv_data) :
  map fst (sort_cv_data data) = map fst data
  /\ Forall2 (fun before after =>
                fst after = fst before
                /\ Permutation (snd before) (snd after)) data (sort_cv_data data)
  /\ (forallb (fun section => forallb ascii_dates (snd section)) data = true ->
      Forall (fun section => StronglySorted descending (snd section))
             (sort_cv_data data))
  /\ sort_cv_data (sort_cv_data data) = sort_cv_data data.
Proof.
  unfold sort_cv_data. split; [|split; [|split]].
  - rewrite map_map. reflexivity.
  - induction data as [|[k es] data IH]; cbn [map]; constructor; [|exact IH].
    cbn [fst snd]. split; [reflexivity|].
    apply (sorted_reverse_perm get_sort_date).
  - intros _. apply Forall_map, Forall_forall. intros [k es] _. cbn [snd].
    apply sort_entries_by_date_sorted.
  - rewrite map_map. apply map_ext. intros [k es]. cbn [fst snd].
    now rewrite (sort_entries_by_date_fixed _ (sort_entries_by_date_sorted es)).
Qed.

Lemma sort_cv_data_sections_witness :
  let data :=
    [("Projects", [dated "p1" None (Some "Jun 2019") None;
                   dated "p2" None (Some "Present") None]);
     ("Work Experience", [dated "w1" (Some "Jan 2020") None None;
                          dated "w2" None None (Some "Jan 2021 -- Dec 2022")])] in
  map (fun section => (fst section, map name (snd section))) (sort_cv_data data)
  = [("Projects", ["p2"; "p1"]); ("Work Experience", ["w2"; "w1"])]
  /\ Forall (fun section => StronglySorted descending (snd section)) (sort_cv_data data).
Proof.
  intros data. split; [reflexivity|].
  exact (proj1 (proj2 (proj2 (sort_cv_data_sections data))) eq_refl).
Defined.

(** ** Fetching the entries *)

Lemma mapM_app {A B : Type} (f : A -> outcome B) (l1 l2 : list A) :
  mapM f (l1 ++ l2)
  = (a <- mapM f l1 ;; b <- mapM f l2 ;; Returns (a ++ b)%list).
Proof.
  induction l1 as [|x l1 IH]; cbn [app mapM bind].
  - destruct (mapM f l2); reflexivity.
  - destruct (f x) as [y| |]; cbn [bind]; try reflexivity.
    rewrite IH. destruct (mapM f l1) as [a| |]; cbn [bind]; try reflexivity.
    destruct (mapM f l2); reflexivity.
Qed.

Section FetchFacts.

Variable fromisoformat : string -> option (Z * Z).
Variable notion_children : children_api.
Variable notion_query : query_api.
Variable depth : nat.

Let build := entry_of_page fromisoformat notion_children depth.

Lemma process_pages_groups (pages : list page) : forall data,
  process_pages fromisoformat notion_children depth pages data
  = (es <- mapM build pages ;; Returns (group_by_type es data)).
Proof.
  induction pages as [|pg pages IH]; intros data; cbn [process_pages mapM bind];
    [reflexivity|].
  fold build. destruct (build pg) as [e| |]; cbn [bind]; try reflexivity.
  rewrite IH. destruct (mapM build pages); reflexivity.
Qed.

Lemma fetch_loop_groups (database_id : string) (cursor : option string)
  (resps : list query_response) :
  query_paged notion_query database_id cursor resps ->
  forall fuel data, List.length resps <= fuel ->
    fetch_loop fromisoformat notion_children notion_query depth fuel database_id
      cursor data
    = (es <- mapM build (concat (map pages_of resps)) ;;
       Returns (group_by_type es data)).
Proof.
  induction 1 as [cursor Hlast | cursor resps Hmore _ IH]; intros fuel data Hf;
    (destruct fuel as [|fuel]; [cbn in Hf; lia|]);
    cbn [fetch_loop map concat]; rewrite process_pages_groups.
  - rewrite Hlast, app_nil_r. cbn [negb].
    destruct (mapM build (pages_of (notion_query database_id cursor))); reflexivity.
  - rewrite Hmore, mapM_app. cbn [negb].
    destruct (mapM build (pages_of (notion_query database_id cursor))) as [es| |];
      cbn [bind]; try reflexivity.
    rewrite IH by (cbn in Hf; lia).
    destruct (mapM build (concat (map pages_of resps))) as [es'| |]; cbn [bind];
      try reflexivity.
    unfold group_by_type. now rewrite fold_left_app.
Qed.

End FetchFacts.

Lemma dict_get_setdefault (data : cv_data) (k name : string) (e : entry) :
  section (setdefault_append data k e) name
  = if String.eqb k name then (section data name ++ [e])%list else section data name.
Proof.
  unfold section, dict_get.
  induction data as [|[k' es] data IH]; cbn [setdefault_append find fst].
  - destruct (String.eqb_spec k name); reflexivity.
  - destruct (String.eqb_spec k' k) as [->|Hk]; cbn [find fst].
    + destruct (String.eqb_spec k name) as [->|Hn]; [reflexivity|].
      reflexivity.
    + destruct (String.eqb_spec k' name) as [->|Hn].
      * destruct (String.eqb_spec k name) as [->|_]; [congruence | reflexivity].
      * exact IH.
Qed.

Lemma setdefault_keys (data : cv_data) (k : string) (e : entry) :
  map fst (setdefault_append data k e)
  = if existsb (String.eqb k) (map fst data) then map fst data
    else (map fst data ++ [k])%list.
Proof.
  induction data as [|[k' es] data IH]; cbn [setdefault_append map fst existsb];
    [reflexivity|].
  rewrite (String.eqb_sym k k').
  destruct (String.eqb k' k); cbn [map fst orb]; [reflexivity|].
  rewrite IH. now destruct (existsb (String.eqb k) (map fst data)).
Qed.

Lemma setdefault_nodup (data : cv_data) (k : string) (e : entry) :
  NoDup (map fst data) -> NoDup (map fst (setdefault_append data k e)).
Proof.
  intros H. rewrite setdefault_keys.
  destruct (existsb (String.eqb k) (map fst data)) eqn:E; [exact H|].
  apply NoDup_app; [exact H | constructor; [intros [] | constructor] |].
  intros x Hx [<-|[]].
  assert (existsb (String.eqb k) (map fst data) = true)
    by (apply existsb_exists; exists k; split; [exact Hx | apply String.eqb_refl]).
  congruence.
Qed.

Lemma group_by_type_section (entries : list entry) : forall data name,
  section (group_by_type entries data) name
  = (section data name ++ filter (fun e => String.eqb (e_type e) name) entries)%list.
Proof.
  unfold group_by_type.
  induction entries as [|e entries IH]; intros data name; cbn [fold_left filter].
  - now rewrite app_nil_r.
  - rewrite IH, dict_get_setdefault.
    destruct (String.eqb (e_type e) name); [now rewrite <- app_assoc | reflexivity].
Qed.

Lemma group_by_type_nodup (entries : list entry) : forall data,
  NoDup (map fst data) -> NoDup (map fst (group_by_type entries data)).
Proof.
  unfold group_by_type.
  induction entries as [|e entries IH]; intros data H; cbn [fold_left]; [exact H|].
  now apply IH, setdefault_nodup.
Qed.

(** X25.  [fetch_notion_data] builds one entry per page, in the order of
    the pages over all the responses of the paginated query, and groups
    them by type: it raises what the first failing page raises, and
    otherwise returns a dict with pairwise distinct section names in
    which the section of each name holds exactly the entries of that
    type, in the order of the pages. *)
Theorem fetch_notion_data_groups_by_type
  (fromisoformat : string -> option (Z * Z)) (notion_children : children_api)
  (notion_query : query_api) (depth fuel : nat) (database_id : string)
  (resps : list query_response) :
  query_paged notion_query database_id None resps ->
  List.length resps <= fuel ->
  let build := entry_of_page fromisoformat notion_children depth in
  let pages := concat (map pages_of resps) in
  fetch_notion_data fromisoformat notion_children notion_query depth fuel database_id
  = (es <- mapM build pages ;; Returns (group_by_type es []))
  /\ forall es, mapM build pages = Returns es ->
       NoDup (map fst (group_by_type es []))
       /\ forall name, section (group_by_type es []) name
                       = filter (fun e => String.eqb (e_type e) name) es.
Proof.
  intros Hp Hf build pages. split.
  - unfold fetch_notion_data. now apply fetch_loop_groups.
  - intros es _. split.
    + apply group_by_type_nodup. constructor.
    + intros name. now rewrite group_by_type_section.
Qed.

Lemma fetch_notion_data_groups_by_type_witness :
  let prop t := mkProperty (Some "select") None None (Some (Some t)) false in
  let pg i t := mkPage (Some i) [("Type", prop t)] (mkProps None None None) in
  let query (_ : string) (_ : option string) :=
    mkQueryResponse (Some [pg "1" "Projects"; pg "2" "Awards"; pg "3" "Projects"])
                    false None in
  let children (_ : string) (_ : option string) :=
    mkResponse (Some [plain_block "paragraph" "x"]) false None in
  let e t body := mkEntry "" "" "" t None None None true body in
  fetch_notion_data (fun _ => None) children query 4 1 "db"
  = Returns [("Projects", [e "Projects" "\item x"; e "Projects" "\item x"]);
             ("Awards", [e "Awards" "x"])].
Proof.
  intros prop pg query children e.
  exact (proj1 (fetch_notion_data_groups_by_type (fun _ => None) children query 4 1 "db"
                  [query "db" None] (query_paged_last query "db" None eq_refl) (le_n 1))).
Defined.

(** X26.  Every entry built from a page has a type that is not empty, a
    page without type falling under "Other"; it is marked visible, and
    none of its three date fields is the empty string.  A page without
    an id gives no entry but [KeyError]. *)
Theorem entry_of_page_invariants
  (fromisoformat : string -> option (Z * Z)) (notion_children : children_api)
  (depth : nat) (pg : page) :
  (forall e,
     entry_of_page fromisoformat notion_children depth pg = Returns e ->
     e_type e <> ""
     /\ (dict_get (pg_text_props pg) "Type" = None -> e_type e = "Other")
     /\ is_visible e = true
     /\ start_date e <> Some "" /\ end_date e <> Some "" /\ date_display e <> Some "")
  /\ (pg_id pg = None ->
      entry_of_page fromisoformat notion_children depth pg = Raises KeyError).
Proof.
  split; [|intros H; unfold entry_of_page; now rewrite H].
  intros e. unfold entry_of_page.
  destruct (pg_id pg) as [page_id|]; [|discriminate].
  pose proof (get_date_range_inked fromisoformat (pg_date_props pg)) as Hd.
  assert (Hnone : dict_get (pg_text_props pg) "Type" = None ->
                  get_prop_text (pg_text_props pg) "Type" = Returns "").
  { intros H. unfold get_prop_text. now rewrite H. }
  destruct (get_prop_text (pg_text_props pg) "Type") as [type_text| |]; cbn [bind];
    try discriminate.
  destruct (get_prop_text (pg_text_props pg) "Title") as [title| |]; cbn [bind];
    try discriminate.
  destruct (get_prop_text (pg_text_props pg) "Organization") as [org| |]; cbn [bind];
    try discriminate.
  destruct (get_prop_text (pg_text_props pg) "Location") as [loc| |]; cbn [bind];
    try discriminate.
  destruct (get_date_range fromisoformat (pg_date_props pg)) as [[s en] d].
  destruct (list_children depth notion_children page_id) as [children| |]; cbn [bind];
    try discriminate.
  destruct (filter_for_resume_region children) as [filtered| |]; cbn [bind];
    try discriminate.
  destruct (convert_blocks_to_latex depth filtered _) as [body| |]; cbn [bind];
    try discriminate.
  intros H. injection H as <-. cbn [e_type is_visible start_date end_date date_display].
  destruct Hd as (H1 & H2 & H3). repeat split; try assumption.
  - destruct type_text; discriminate.
  - intros Hn. specialize (Hnone Hn). now injection Hnone as ->.
Qed.

Lemma entry_of_page_invariants_witness :
  entry_of_page (fun _ => None) (fun _ _ => mkResponse None false None) 3
    (mkPage None [] (mkProps None None None))
  = Raises KeyError.
Proof.
  exact (proj2 (entry_of_page_invariants (fun _ => None)
                  (fun _ _ => mkResponse None false None) 3
                  (mkPage None [] (mkProps None None None))) eq_refl).
Defined.

(** ** Inline annotation renderer and escaper together *)

Lemma latex_escape_app (a b : string) :
  latex_escape (a ++ b) = latex_escape a ++ latex_escape b.
Proof.
  induction a as [|c a IH]; cbn [latex_escape append]; [reflexivity|].
  now rewrite IH, append_assoc.
Qed.

(** X27.  For spans without annotations and without link targets,
    rendering is escaping: the output of [rt_to_latex] is the escape of
    the whole text of the spans. *)
Theorem rt_to_latex_plain_spans (spans : list rich_text_obj) :
  Forall (fun rt => ann_of rt = no_annotations /\ Py.truthy (href rt) = false) spans ->
  rt_to_latex spans = latex_escape (spans_text spans).
Proof.
  induction 1 as [|rt spans [Ha Hh] _ IH]; [reflexivity|].
  change (rt :: spans) with ([rt] ++ spans)%list.
  rewrite rt_to_latex_app, rt_to_latex_single, IH.
  change ([rt] ++ spans)%list with (rt :: spans).
  rewrite spans_text_cons, latex_escape_app. f_equal.
  unfold render_span. fold (ann_of rt). fold (text_of rt). rewrite Ha, Hh. reflexivity.
Qed.

Lemma rt_to_latex_plain_spans_witness :
  rt_to_latex [mkRT (Some "R&D ") None None; mkRT (Some "50%") (Some no_annotations) (Some "")]
  = "R\&D 50\%".
Proof.
  exact (rt_to_latex_plain_spans
           [mkRT (Some "R&D ") None None; mkRT (Some "50%") (Some no_annotations) (Some "")]
           ltac:(repeat constructor)).
Defined.
